(** * Indeks AI: intent routing, market statistics and narration fallbacks

    A shallow embedding of [Indeks.ai.py]: the keyword classifier that routes a
    chat prompt, the two Yahoo Finance fetchers, the weekly statistics, and the
    three response composers with their fallbacks.

    Conventions of the embedding.
    - A Python [str] is the [string] of its UTF-8 encoding: an ASCII character
      is one [ascii], another character is a lead byte followed by continuation
      bytes.  [len] and the slice [s[:n]] count characters, not bytes.  [lower]
      and [upper] change the ASCII letters only.
    - The prices are numpy [float64] values: they are primitive binary64
      floats here, with IEEE 754 arithmetic (a division by zero gives an
      infinity or a NaN, it does not raise).  The [int] constants that meet
      them ([0], [100], a [len]) are the floats of the same value.
    - A call that may raise returns a [PyResult]; the calls to the language
      model are recorded in a log threaded by the [Eff] monad.
    - The data provider, the language model, the clock and [strftime] are the
      fields of a [World]. *)

From Stdlib Require Import Floats Uint63 ZArith NArith String Ascii List Bool Arith Lia.
From Stdlib Require Import DecimalString.
Import ListNotations.

Local Open Scope list_scope.
Local Open Scope string_scope.

(** ** Python strings *)

Module PyStr.

Definition lower_char (c : ascii) : ascii :=
  let n := nat_of_ascii c in
  if (65 <=? n)%nat && (n <=? 90)%nat then ascii_of_nat (n + 32) else c.

Definition upper_char (c : ascii) : ascii :=
  let n := nat_of_ascii c in
  if (97 <=? n)%nat && (n <=? 122)%nat then ascii_of_nat (n - 32) else c.

Fixpoint map_chars (f : ascii -> ascii) (s : string) : string :=
  match s with
  | EmptyString => EmptyString
  | String c s' => String (f c) (map_chars f s')
  end.

(** [s.lower()] and [s.upper()] *)
Definition lower : string -> string := map_chars lower_char.
Definition upper : string -> string := map_chars upper_char.

(** [s.startswith(p)] *)
Fixpoint startswith (p s : string) : bool :=
  match p, s with
  | EmptyString, _ => true
  | String _ _, EmptyString => false
  | String a p', String b s' => Ascii.eqb a b && startswith p' s'
  end.

(** [sub in s]: [sub] occurs in [s] at some position *)
Fixpoint contains (sub s : string) : bool :=
  startswith sub s ||
  match s with
  | EmptyString => false
  | String _ s' => contains sub s'
  end.

(** [s[:n]] for a [str] of ASCII characters *)
Fixpoint take (n : nat) (s : string) : string :=
  match n, s with
  | O, _ => EmptyString
  | S _, EmptyString => EmptyString
  | S n', String c s' => String c (take n' s')
  end.

(** A continuation byte of UTF-8, [10xxxxxx]: every other byte starts a
    character. *)
Definition is_continuation (c : ascii) : bool :=
  let n := nat_of_ascii c in (128 <=? n)%nat && (n <? 192)%nat.

(** [len(s)]: the number of characters *)
Fixpoint len (s : string) : nat :=
  match s with
  | EmptyString => 0
  | String c s' => if is_continuation c then len s' else S (len s')
  end.

(** [s[:n]]: the first [n] characters, each with all its bytes *)
Fixpoint slice_to (n : nat) (s : string) : string :=
  match s with
  | EmptyString => EmptyString
  | String c s' =>
      if is_continuation c then String c (slice_to n s')
      else match n with
           | O => EmptyString
           | S n' => String c (slice_to n' s')
           end
  end.

(** [chr(10).join(parts)] *)
Fixpoint join (sep : string) (parts : list string) : string :=
  match parts with
  | [] => EmptyString
  | [p] => p
  | p :: rest => p ++ sep ++ join sep rest
  end.

Definition dquote : string := String (ascii_of_nat 34) EmptyString.
Definition nl : string := String (ascii_of_nat 10) EmptyString.

End PyStr.

(** [any(k in text for k in keywords)] *)
Definition any_in (keywords : list string) (text : string) : bool :=
  existsb (fun k => PyStr.contains k text) keywords.

(** ** Keyword detection *)

Definition exclusion_words : list string :=
  ["apa itu"; "jelaskan"; "definisi"; "maksudnya"; "pengertian";
   "bagaimana cara"; "mengapa"; "kenapa"; "perbedaan"].

Definition data_keywords : list string :=
  ["ihsg"; "indeks harga saham gabungan"; "jkse";
   "bursa hari ini"; "posisi ihsg"; "berapa ihsg";
   "harga ihsg"; "idx"; "indeks komposit"; "bursa saham indonesia";
   "saham hari ini"; "pasar modal hari ini"; "update ihsg";
   "pergerakan ihsg"; "closing ihsg"; "pembukaan ihsg"; "berita ihsg"].

Definition weekly_keywords : list string :=
  ["seminggu"; "minggu ini"; "7 hari"; "mingguan"; "weekly";
   "seminggu terakhir"; "data seminggu"; "tren minggu";
   "pergerakan seminggu"; "grafik minggu"; "chart minggu"].

Definition is_ihsg_data_request (prompt : string) : bool :=
  let prompt_lower := PyStr.lower prompt in
  if any_in exclusion_words prompt_lower then false
  else any_in data_keywords prompt_lower.

Definition is_ihsg_weekly_request (prompt : string) : bool :=
  let prompt_lower := PyStr.lower prompt in
  any_in weekly_keywords prompt_lower.

(** The three response modes of the chat handler. *)
Inductive Intent : Type :=
  | Educational
  | LatestQuoteRequest
  | WeeklySeriesRequest.

(** The branch the chat handler takes for a prompt:
    [if is_ihsg_weekly_request(prompt) ... elif is_ihsg_data_request(prompt)
    ... else ...]. *)
Definition classify (prompt : string) : Intent :=
  if is_ihsg_weekly_request prompt then WeeklySeriesRequest
  else if is_ihsg_data_request prompt then LatestQuoteRequest
  else Educational.

(** An utterance holds a marker of a list when its lower-cased text has the
    marker between some prefix and some suffix. *)
Definition has_marker (markers : list string) (utterance : string) : Prop :=
  exists kw pre post,
    In kw markers /\ PyStr.lower utterance = pre ++ kw ++ post.

(** ** Python values and builtins *)

(** The outcome of a call: a value, or an exception with its [str(e)]. *)
Inductive PyResult (A : Type) : Type :=
  | Return (a : A)
  | Raise (e : string).
Arguments Return {A} a.
Arguments Raise {A} e.

Module Py.

Definition bind {A B : Type} (r : PyResult A) (k : A -> PyResult B) : PyResult B :=
  match r with
  | Return a => k a
  | Raise e => Raise e
  end.

(** [xs[i]] on a list, a negative [i] counting from the end *)
Definition getitem {A : Type} (xs : list A) (i : Z) : PyResult A :=
  let n := Z.of_nat (length xs) in
  let j := if (i <? 0)%Z then (i + n)%Z else i in
  if (j <? 0)%Z then Raise "list index out of range"
  else match nth_error xs (Z.to_nat j) with
       | Some x => Return x
       | None => Raise "list index out of range"
       end.

(** [len(xs) > 0] together with [xs[-1]] *)
Definition last_item {A : Type} (xs : list A) : option A :=
  nth_error xs (length xs - 1).

(** [max(xs)]: the first item, replaced by every later item that compares
    greater than the one held *)
Definition max (xs : list float) : PyResult float :=
  match xs with
  | [] => Raise "max() arg is an empty sequence"
  | x :: rest =>
      Return (fold_left (fun maxitem item =>
                           if (maxitem <? item)%float then item else maxitem)
                        rest x)
  end.

(** [min(xs)]: the first item, replaced by every later item that compares
    less than the one held *)
Definition min (xs : list float) : PyResult float :=
  match xs with
  | [] => Raise "min() arg is an empty sequence"
  | x :: rest =>
      Return (fold_left (fun minitem item =>
                           if (item <? minitem)%float then item else minitem)
                        rest x)
  end.

(** [sum(xs)]: additions from the left, starting at 0 *)
Definition sum (xs : list float) : float :=
  fold_left PrimFloat.add xs 0%float.

(** an [int] count used as an operand of a float operation *)
Definition float_of_nat (n : nat) : float :=
  PrimFloat.of_uint63 (Uint63.of_Z (Z.of_nat n)).

(** *** Format specifications [.Nf], with the [+] and [,] options *)

(** the quotient [num / den] rounded to the nearest integer, a tie to the
    even one; [den] is positive *)
Definition round_half_even (num den : Z) : Z :=
  let q := (num / den)%Z in
  let r := (num mod den)%Z in
  match (2 * r ?= den)%Z with
  | Lt => q
  | Gt => (q + 1)%Z
  | Eq => if Z.even q then q else (q + 1)%Z
  end.

(** [m * 2^e * 10^prec] rounded to an integer *)
Definition scaled (prec : nat) (m : positive) (e : Z) : Z :=
  let n := (Zpos m * 10 ^ Z.of_nat prec)%Z in
  if (0 <=? e)%Z then (n * 2 ^ e)%Z else round_half_even n (2 ^ (- e))%Z.

Fixpoint zeros (n : nat) : string :=
  match n with
  | O => EmptyString
  | S n' => String "0" (zeros n')
  end.

Fixpoint drop (n : nat) (s : string) : string :=
  match n, s with
  | O, _ => s
  | S _, EmptyString => EmptyString
  | S n', String _ s' => drop n' s'
  end.

Fixpoint group_thousands (s : string) : string :=
  match s with
  | EmptyString => EmptyString
  | String c s' =>
      String c (if (0 <? String.length s')%nat && (String.length s' mod 3 =? 0)%nat
                then "," ++ group_thousands s'
                else group_thousands s')
  end.

Definition fixed_digits (comma : bool) (prec : nat) (n : Z) : string :=
  let d := NilZero.string_of_uint (N.to_uint (Z.to_N n)) in
  let d := zeros (S prec - String.length d) ++ d in
  let int_part := PyStr.take (String.length d - prec) d in
  let frac_part := drop (String.length d - prec) d in
  (if comma then group_thousands int_part else int_part)
  ++ (if (prec =? 0)%nat then "" else "." ++ frac_part).

Definition sign_str (plus negative : bool) : string :=
  if negative then "-" else if plus then "+" else "".

(** [format(x, spec)] for the specs [.Nf], [+.Nf], [,.Nf] and [+,.Nf]: the
    exact binary value of [x] rounded to [prec] decimals *)
Definition format_f (plus comma : bool) (prec : nat) (x : float) : string :=
  match Prim2SF x with
  | S754_nan => sign_str plus false ++ "nan"
  | S754_infinity s => sign_str plus s ++ "inf"
  | S754_zero s => sign_str plus s ++ fixed_digits comma prec 0
  | S754_finite s m e => sign_str plus s ++ fixed_digits comma prec (scaled prec m e)
  end.

(** [str(n)] of an [int] *)
Definition str_of_int (n : Z) : string :=
  NilZero.string_of_int (Z.to_int n).

End Py.

Notation "x <~ r ;; k" := (Py.bind r (fun x => k))
  (at level 61, r at next level, right associativity).


(** ** Market data *)

(** A pandas [Timestamp], observed through [.date()] (as a day number) and
    through [strftime]. *)
Record Timestamp : Type := { to_ordinal : Z }.

(** One row of the provider's history frame, with its index. *)
Module Hist.
Record Row : Type := {
  idx : Timestamp;
  Open : float;
  High : float;
  Low : float;
  Close : float;
  Volume : float
}.
End Hist.

(** The dictionary returned by [fetch_ihsg_data]. *)
Module Quote.
Record t : Type := {
  close : float;
  prev_close : float;
  change_points : float;
  change_percent : float;
  date : string;
  day_name : string;
  status : string;
  is_today : bool;
  days_ago : Z;
  market_status : string;
  timestamp : Timestamp
}.
End Quote.

(** One dictionary of the list returned by [fetch_ihsg_weekly_data]. *)
Module Bar.
Record t : Type := {
  date : string;
  day : string;
  close : float;
  open : float;
  high : float;
  low : float;
  volume : float;
  change : float;
  change_pct : float
}.
End Bar.

(** What a fetcher returns: [None], [{"error": str(e)}], or the data. *)
Inductive Fetched (A : Type) : Type :=
  | NoData
  | Failed (error : string)
  | Data (a : A).
Arguments NoData {A}.
Arguments Failed {A} error.
Arguments Data {A} a.

(** LangChain messages. *)
Inductive BaseMessage : Type :=
  | SystemMessage (content : string)
  | HumanMessage (content : string)
  | AIMessage (content : string).

(** The collaborators of the program: [yf.Ticker("^JKSE").history(period)],
    [Timestamp.strftime], [datetime.now()] and [llm.invoke(messages).content]. *)
Record World : Type := {
  history : string -> PyResult (list Hist.Row);
  strftime : Timestamp -> string -> string;
  now : Timestamp;
  llm_invoke : list BaseMessage -> PyResult string
}.

(** [hist.iloc[i]] on the rows of a frame *)
Definition iloc (hist : list Hist.Row) (i : Z) : PyResult Hist.Row :=
  match Py.getitem hist i with
  | Return r => Return r
  | Raise _ => Raise "single positional indexer is out-of-bounds"
  end.

(** [hist.tail(n)] *)
Definition tail (n : nat) (hist : list Hist.Row) : list Hist.Row :=
  skipn (length hist - n) hist.

(** [{"error": str(e)}] for an exception caught by [except Exception as e] *)
Definition caught {A : Type} (r : PyResult (Fetched A)) : Fetched A :=
  match r with
  | Return v => v
  | Raise e => Failed e
  end.

Definition fetch_ihsg_data (w : World) : Fetched Quote.t :=
  caught (
    hist <~ history w "5d" ;;
    if (length hist =? 0)%nat || (length hist <? 2)%nat then Return NoData
    else
      latest <~ iloc hist (-1) ;;
      prev <~ iloc hist (-2) ;;
      let latest_close := Hist.Close latest in
      let prev_close := Hist.Close prev in
      let change_points := (latest_close - prev_close)%float in
      let change_percent := ((change_points / prev_close) * 100)%float in
      let last_date := Hist.idx latest in
      let last_date_str := strftime w last_date "%d %B %Y" in
      let day_name := strftime w last_date "%A" in
      let is_today := (to_ordinal last_date =? to_ordinal (now w))%Z in
      let days_ago := (to_ordinal (now w) - to_ordinal last_date)%Z in
      let market_status :=
        if is_today then "hari ini" else Py.str_of_int days_ago ++ " hari lalu" in
      Return (Data {|
        Quote.close := latest_close;
        Quote.prev_close := prev_close;
        Quote.change_points := change_points;
        Quote.change_percent := change_percent;
        Quote.date := last_date_str;
        Quote.day_name := day_name;
        Quote.status :=
          if (0 <? change_points)%float then "naik"
          else if (change_points <? 0)%float then "turun"
          else "stagnan";
        Quote.is_today := is_today;
        Quote.days_ago := days_ago;
        Quote.market_status := market_status;
        Quote.timestamp := last_date
      |})).

(** One turn of the loop [for idx, row in hist.iterrows()] *)
Definition append_bar (w : World) (weekly_data : list Bar.t) (row : Hist.Row)
  : list Bar.t :=
  let date_str := strftime w (Hist.idx row) "%d %b %Y" in
  let day_name := strftime w (Hist.idx row) "%A" in
  let '(change, change_pct) :=
    match Py.last_item weekly_data with
    | Some prev =>
        let prev_close := Bar.close prev in
        let change := (Hist.Close row - prev_close)%float in
        (change, ((change / prev_close) * 100)%float)
    | None => (0%float, 0%float)
    end in
  (weekly_data ++ [{|
    Bar.date := date_str;
    Bar.day := day_name;
    Bar.close := Hist.Close row;
    Bar.open := Hist.Open row;
    Bar.high := Hist.High row;
    Bar.low := Hist.Low row;
    Bar.volume := Hist.Volume row;
    Bar.change := change;
    Bar.change_pct := change_pct
  |}])%list.

Definition fetch_ihsg_weekly_data (w : World) : Fetched (list Bar.t) :=
  caught (
    hist <~ history w "1mo" ;;
    if (length hist =? 0)%nat then Return NoData
    else
      let hist := tail 7 hist in
      Return (Data (fold_left (append_bar w) hist []))).

(** ** The language model and its call log *)

Definition SYSTEM_INSTRUCTION : string :=
  "Anda adalah Indeks AI, seorang analis Pasar Modal Indonesia yang profesional, objektif, dan edukatif. 

Tugas Anda:
- Berikan jawaban yang ringkas, berdasarkan fakta, dan fokus pada IHSG, emiten Indonesia, dan ekonomi makro Indonesia
- Jelaskan istilah teknis dengan bahasa yang mudah dipahami untuk investor pemula hingga menengah
- Selalu objektif dan tidak memberikan rekomendasi beli/jual saham secara spesifik
- Gunakan Bahasa Indonesia yang profesional namun ramah
- Jika tidak yakin, akui keterbatasan dan sarankan konsultasi dengan profesional berlisensi

Konteks: Anda membantu investor Indonesia memahami pasar modal dalam negeri dengan lebih baik.".

(** The calls made to [llm.invoke], oldest first. *)
Definition Log : Type := list (list BaseMessage).

(** A computation that may call the language model and may raise. *)
Definition Eff (A : Type) : Type := Log -> PyResult A * Log.

Module Eff.

Definition ret {A : Type} (a : A) : Eff A := fun log => (Return a, log).

Definition bind {A B : Type} (m : Eff A) (k : A -> Eff B) : Eff B :=
  fun log =>
    match m log with
    | (Return a, log') => k a log'
    | (Raise e, log') => (Raise e, log')
    end.

(** a computation that raises or returns without calling the model *)
Definition lift {A : Type} (r : PyResult A) : Eff A := fun log => (r, log).

(** [llm.invoke(messages).content] *)
Definition invoke (w : World) (messages : list BaseMessage) : Eff string :=
  fun log => (llm_invoke w messages, (log ++ [messages])%list).

(** [try: body / except: handler] *)
Definition try_except {A : Type} (body : Eff A) (handler : string -> Eff A) : Eff A :=
  fun log =>
    match body log with
    | (Return a, log') => (Return a, log')
    | (Raise e, log') => handler e log'
    end.

(** a run from the empty log *)
Definition run {A : Type} (m : Eff A) : PyResult A * Log := m [].

End Eff.

Notation "x <- m ;; k" := (Eff.bind m (fun x => k))
  (at level 61, m at next level, right associativity).

(** ** Weekly mode *)

(** The values of the block [# Statistik]. *)
Record WeeklyStats : Type := {
  latest : Bar.t;
  oldest : Bar.t;
  week_change : float;
  week_change_pct : float;
  highest : float;
  lowest : float;
  avg_close : float
}.

Definition weekly_statistics (weekly_data : list Bar.t) : PyResult WeeklyStats :=
  latest <~ Py.getitem weekly_data (-1) ;;
  oldest <~ Py.getitem weekly_data 0 ;;
  let week_change := (Bar.close latest - Bar.close oldest)%float in
  let week_change_pct := ((week_change / Bar.close oldest) * 100)%float in
  highest <~ Py.max (map Bar.high weekly_data) ;;
  lowest <~ Py.min (map Bar.low weekly_data) ;;
  let avg_close :=
    (Py.sum (map Bar.close weekly_data) / Py.float_of_nat (length weekly_data))%float in
  Return {|
    latest := latest;
    oldest := oldest;
    week_change := week_change;
    week_change_pct := week_change_pct;
    highest := highest;
    lowest := lowest;
    avg_close := avg_close
  |}.

(** The label of the line [- Status:] of the summary. *)
Definition weekly_status (week_change : float) : string :=
  if (0 <? week_change)%float then "📈 MENGUAT"
  else if (week_change <? 0)%float then "📉 MELEMAH"
  else "➡️ STAGNAN".

Definition stats_text (s : WeeklyStats) : string :=
  let '{| latest := latest; oldest := oldest; week_change := week_change;
          week_change_pct := week_change_pct; highest := highest;
          lowest := lowest; avg_close := avg_close |} := s in
  "
📊 **Ringkasan Data IHSG 7 Hari Trading Terakhir**

**Performa Mingguan:**
- Penutupan Awal: " ++ (Py.format_f false true 2 (Bar.close oldest)) ++ " (" ++ Bar.date oldest ++ ")
- Penutupan Akhir: " ++ (Py.format_f false true 2 (Bar.close latest)) ++ " (" ++ Bar.date latest ++ ")
- Perubahan Minggu: " ++ (Py.format_f true true 2 week_change) ++ " poin (" ++ (Py.format_f true false 2 week_change_pct) ++ "%)
- Status: " ++ weekly_status week_change ++ "

**Statistik:**
- Tertinggi: " ++ (Py.format_f false true 2 highest) ++ "
- Terendah: " ++ (Py.format_f false true 2 lowest) ++ "
- Rata-rata: " ++ (Py.format_f false true 2 avg_close) ++ "
- Range: " ++ (Py.format_f false true 2 (highest - lowest)%float) ++ " poin

---
".

Definition daily_line (d : Bar.t) : string :=
  "- " ++ Bar.date d ++ " (" ++ Bar.day d ++ "): " ++ (Py.format_f false false 2 (Bar.close d)) ++ " (" ++ (Py.format_f true false 2 (Bar.change d)) ++ " / " ++ (Py.format_f true false 2 (Bar.change_pct d)) ++ "%)".

Definition summary_for_ai (s : WeeklyStats) (weekly_data : list Bar.t) : string :=
  let '{| latest := latest; oldest := oldest; week_change := week_change;
          week_change_pct := week_change_pct; highest := highest;
          lowest := lowest |} := s in
  "Data IHSG 7 hari trading terakhir:
- Periode: " ++ Bar.date oldest ++ " sampai " ++ Bar.date latest ++ "
- Penutupan awal: " ++ (Py.format_f false false 2 (Bar.close oldest)) ++ "
- Penutupan akhir: " ++ (Py.format_f false false 2 (Bar.close latest)) ++ "
- Perubahan: " ++ (Py.format_f true false 2 week_change) ++ " poin (" ++ (Py.format_f true false 2 week_change_pct) ++ "%)
- Tertinggi: " ++ (Py.format_f false false 2 highest) ++ ", Terendah: " ++ (Py.format_f false false 2 lowest) ++ "

Detail harian:
" ++ PyStr.join PyStr.nl (map daily_line weekly_data).

Definition weekly_prompt (summary_for_ai : string) : list BaseMessage :=
  [SystemMessage SYSTEM_INSTRUCTION;
   HumanMessage ("Sebagai analis pasar, berikan analisis singkat (2-3 paragraf) tentang pergerakan IHSG seminggu terakhir:

" ++ summary_for_ai ++ "

Format:
1. Gambaran umum performa mingguan (naik/turun berapa persen)
2. Highlight hari dengan pergerakan signifikan
3. Observasi pola atau tren (jika ada)

PENTING: Tetap objektif, jangan buat prediksi atau rekomendasi. Fokus pada fakta data.")].

(** The frame shown under the weekly answer. *)
Module Display.
Record Row : Type := {
  Tanggal : string;
  Hari : string;
  Penutupan : string;
  Perubahan : string;
  Volume : string
}.
End Display.

Definition display_row (d : Bar.t) : Display.Row := {|
  Display.Tanggal := Bar.date d;
  Display.Hari := Bar.day d;
  Display.Penutupan := Py.format_f false true 2 (Bar.close d);
  Display.Perubahan :=
    if negb (Bar.change d =? 0)%float
    then Py.format_f true true 2 (Bar.change d) ++ " ("
         ++ Py.format_f true false 2 (Bar.change_pct d) ++ "%)"
    else "-";
  Display.Volume := Py.format_f false true 0 (Bar.volume d)
|}.

(** [pd.DataFrame(weekly_data)] and the columns derived from it; a frame made of
    no dictionary has no column ['close']. *)
Definition display_df (weekly_data : list Bar.t) : PyResult (list Display.Row) :=
  match weekly_data with
  | [] => Raise "'close'"
  | _ => Return (map display_row weekly_data)
  end.

(** What [get_ihsg_weekly_data_and_format] returns: a message alone, or the
    pair of the answer and the frame. *)
Inductive WeeklyResult : Type :=
  | WeeklyMessage (text : string)
  | WeeklyReport (text : string) (table : list Display.Row).

Definition weekly_error_message (error_msg : string) : string :=
  "⚠️ Maaf, tidak dapat mengambil data mingguan IHSG dari Yahoo Finance. Error: " ++ error_msg.

Definition weekly_result_text (ai_analysis stats_text : string) : string :=
  ai_analysis ++ "

" ++ stats_text ++ "

**📋 Tabel Data Lengkap:**
".

Definition get_ihsg_weekly_data_and_format (w : World) : Eff WeeklyResult :=
  match fetch_ihsg_weekly_data w with
  | NoData => Eff.ret (WeeklyMessage (weekly_error_message "Data tidak tersedia"))
  | Failed error_msg => Eff.ret (WeeklyMessage (weekly_error_message error_msg))
  | Data weekly_data =>
      display_df <- Eff.lift (display_df weekly_data) ;;
      s <- Eff.lift (weekly_statistics weekly_data) ;;
      let stats_text := stats_text s in
      let summary_for_ai := summary_for_ai s weekly_data in
      ai_analysis <-
        Eff.try_except (Eff.invoke w (weekly_prompt summary_for_ai))
          (fun _ => Eff.ret "Analisis AI tidak tersedia saat ini.") ;;
      Eff.ret (WeeklyReport (weekly_result_text ai_analysis stats_text) display_df)
  end.

(** ** Latest mode *)

Definition error_prompt (error_msg : string) : list BaseMessage :=
  [SystemMessage SYSTEM_INSTRUCTION;
   HumanMessage ("Data IHSG dari sumber eksternal gagal diambil dengan error: " ++ error_msg ++ ". 
        
Berikan respons yang sopan kepada pengguna bahwa data pasar real-time sedang tidak tersedia dan sarankan untuk:
1. Coba beberapa saat lagi
2. Cek langsung di website BEI atau aplikasi trading
3. Tetap bisa bertanya hal lain terkait edukasi pasar modal

PENTING: Berikan respons LENGKAP dalam satu output, jangan terpotong.")].

Definition error_fallback : string :=
  "⚠️ Maaf, sistem sedang mengalami kendala dalam mengakses data pasar. Silakan coba beberapa saat lagi atau tanyakan hal lain terkait edukasi investasi.".

Definition data_text (data : Quote.t) : string :=
  "Data IHSG dari Yahoo Finance:
- Tanggal Data: " ++ Quote.day_name data ++ ", " ++ Quote.date data ++ "
- Status Pasar: " ++ (if Quote.is_today data then "Data hari ini (real-time)" else "Data " ++ Py.str_of_int (Quote.days_ago data) ++ " hari lalu (bursa tutup hari ini)") ++ "
- Penutupan: " ++ (Py.format_f false false 2 (Quote.close data)) ++ " poin
- Perubahan: " ++ (Py.format_f true false 2 (Quote.change_points data)) ++ " poin (" ++ (Py.format_f true false 2 (Quote.change_percent data)) ++ "%)
- Status: " ++ PyStr.upper (Quote.status data) ++ "
- Penutupan sebelumnya: " ++ (Py.format_f false false 2 (Quote.prev_close data)) ++ " poin

Catatan: Data ini REAL dari Yahoo Finance ticker ^JKSE".

Definition hybrid_prompt (data_text : string) : list BaseMessage :=
  [SystemMessage SYSTEM_INSTRUCTION;
   HumanMessage ("Bertindak sebagai penyiar berita pasar profesional, sajikan data IHSG berikut dalam format yang jelas:

" ++ data_text ++ "

Format respons:
1. Mulai dengan menyebutkan SUMBER DATA (Yahoo Finance) dan KAPAN data tersebut
2. Jika data bukan hari ini, jelaskan MENGAPA (bursa tutup di weekend/libur)
3. Sebutkan posisi penutupan IHSG dengan jelas
4. Jelaskan pergerakan (naik/turun) dengan angka pasti
5. Gunakan bahasa yang natural dan informatif

CONTOH FORMAT YANG BAIK:
" ++ PyStr.dquote ++ "Berdasarkan data dari Yahoo Finance, IHSG pada hari [HARI], [TANGGAL] ditutup di level [ANGKA] poin. [Jika bukan hari ini: " ++ PyStr.dquote ++ "Data ini merupakan penutupan terakhir karena bursa saham tidak beroperasi pada hari Sabtu/Minggu/libur" ++ PyStr.dquote ++ "]. Indeks mengalami [NAIK/TURUN] sebesar [ANGKA] poin atau [PERSEN]% dari penutupan sebelumnya di [ANGKA] poin." ++ PyStr.dquote ++ "

PENTING: 
- Sebutkan dengan jelas bahwa data dari Yahoo Finance
- Jika data bukan hari ini, WAJIB menjelaskan alasannya
- Berikan respons LENGKAP dalam satu output")].

Definition data_detail (data : Quote.t) : string :=
  "

---
**📊 Data Mentah dari Yahoo Finance (^JKSE):**
- 📅 Tanggal: " ++ Quote.day_name data ++ ", " ++ Quote.date data ++ "
- 💰 Penutupan: **" ++ (Py.format_f false false 2 (Quote.close data)) ++ "** poin
- 📈 Perubahan: **" ++ (Py.format_f true false 2 (Quote.change_points data)) ++ "** poin " ++ "(" ++ "**" ++ (Py.format_f true false 2 (Quote.change_percent data)) ++ "%**)
- 🔄 Status: **" ++ PyStr.upper (Quote.status data) ++ "**
- ⏰ Data diambil: " ++ Quote.market_status data ++ "
".

Definition hybrid_fallback (data : Quote.t) : string :=
  "⚠️ Data IHSG: " ++ (Py.format_f false false 2 (Quote.close data)) ++ " (" ++ (Py.format_f true false 2 (Quote.change_percent data)) ++ "%). Sistem AI sedang sibuk, data mentah ditampilkan.".

(** The branch [if data is None or "error" in data] of
    [get_ihsg_data_and_format]. *)
Definition error_response (w : World) (error_msg : string) : Eff string :=
  Eff.try_except (Eff.invoke w (error_prompt error_msg))
    (fun _ => Eff.ret error_fallback).

Definition get_ihsg_data_and_format (w : World) : Eff string :=
  match fetch_ihsg_data w with
  | NoData => error_response w "Data tidak tersedia"
  | Failed error_msg => error_response w error_msg
  | Data data =>
      Eff.try_except
        (response <- Eff.invoke w (hybrid_prompt (data_text data)) ;;
         Eff.ret (response ++ data_detail data))
        (fun _ => Eff.ret (hybrid_fallback data))
  end.

(** ** Educational mode *)

(** One entry of [st.session_state.messages]. *)
Record ChatMessage : Type := { role : string; content : string }.

(** [chat_history[-8:] if len(chat_history) > 8 else chat_history] *)
Definition recent_history (chat_history : list ChatMessage) : list ChatMessage :=
  if (8 <? length chat_history)%nat
  then skipn (length chat_history - 8) chat_history
  else chat_history.

(** The content replayed for an assistant turn. *)
Definition replayed_content (content : string) : string :=
  if (500 <? PyStr.len content)%nat
  then PyStr.slice_to 500 content ++ "..."
  else content.

(** One turn of the loop [for msg in recent_history]. *)
Definition append_turn (messages : list BaseMessage) (msg : ChatMessage)
  : list BaseMessage :=
  if (role msg =? "user")%string
  then (messages ++ [HumanMessage (content msg)])%list
  else if (role msg =? "assistant")%string
  then (messages ++ [AIMessage (replayed_content (content msg))])%list
  else messages.

Definition full_prompt (prompt : string) : string :=
  prompt ++ "

PENTING: Berikan jawaban yang LENGKAP dan TUNTAS dalam satu respons. Jangan berhenti di tengah kalimat.".

Definition llm_fallback : string :=
  "⚠️ Maaf, terjadi kesalahan dalam memproses permintaan Anda. Silakan coba dengan pertanyaan yang lebih ringkas atau coba lagi.".

(** The list of messages [get_llm_response] sends to the model. *)
Definition llm_messages (prompt : string) (chat_history : list ChatMessage)
  : list BaseMessage :=
  let messages := [SystemMessage SYSTEM_INSTRUCTION] in
  let messages := fold_left append_turn (recent_history chat_history) messages in
  (messages ++ [HumanMessage (full_prompt prompt)])%list.

Definition get_llm_response (w : World) (prompt : string)
    (chat_history : list ChatMessage) : Eff string :=
  Eff.try_except
    (Eff.invoke w (llm_messages prompt chat_history))
    (fun _ => Eff.ret llm_fallback).

(** ** The session and the chat handler *)

Definition greeting : string :=
  "👋 Selamat datang di **Indeks AI**!

Saya adalah asisten virtual Anda untuk memahami Pasar Modal Indonesia. Saya dapat membantu Anda dengan:

📊 **Informasi IHSG**: Posisi IHSG terkini, pergerakan harian  
📚 **Edukasi Investasi**: Penjelasan istilah, konsep, dan strategi pasar modal  
🎯 **Analisis Objektif**: Informasi berbasis data untuk keputusan investasi yang lebih baik

**Contoh pertanyaan:**
- " ++ PyStr.dquote ++ "Apa itu IHSG?" ++ PyStr.dquote ++ "
- " ++ PyStr.dquote ++ "Berita IHSG hari ini?" ++ PyStr.dquote ++ "
- " ++ PyStr.dquote ++ "Data IHSG seminggu terakhir?" ++ PyStr.dquote ++ "
- " ++ PyStr.dquote ++ "Jelaskan perbedaan saham dan obligasi" ++ PyStr.dquote ++ "
- " ++ PyStr.dquote ++ "Bagaimana cara membaca laporan keuangan?" ++ PyStr.dquote ++ "

Silakan ajukan pertanyaan Anda! 🚀

---
*Powered by LangChain + Google Gemini 2.5 Flash*".

(** [if "messages" not in st.session_state]: a new session starts with the
    greeting, an existing one is left as it is. *)
Definition init_session (session_state : option (list ChatMessage))
  : list ChatMessage :=
  match session_state with
  | None => [{| role := "assistant"; content := greeting |}]
  | Some messages => messages
  end.

(** [d[k] = v] on a dictionary kept in insertion order *)
Fixpoint dict_set (k : string) (v : float) (d : list (string * float))
  : list (string * float) :=
  match d with
  | [] => [(k, v)]
  | (k', v') :: rest =>
      if (k' =? k)%string then (k', v) :: rest else (k', v') :: dict_set k v rest
  end.

(** [{d['date']: d['close'] for d in weekly_data}] *)
Definition chart_data (weekly_data : list Bar.t) : list (string * float) :=
  fold_left (fun d bar => dict_set (Bar.date bar) (Bar.close bar) d) weekly_data [].

(** The lines under [st.dataframe]: what [fetch_ihsg_weekly_data] returns when
    it is called again is charted if it is truthy.  [None] and the empty list
    are not; the dictionary of an error is, and iterating it gives its key, a
    [str], which [d['date']] cannot index. *)
Definition line_chart (weekly_data : Fetched (list Bar.t))
  : PyResult (option (list (string * float))) :=
  match weekly_data with
  | NoData => Return None
  | Failed _ => Raise "string indices must be integers, not 'str'"
  | Data [] => Return None
  | Data weekly_data => Return (Some (chart_data weekly_data))
  end.

(** What one submission leaves: the session's messages, the frame and the
    chart shown, and the exception that ended the run, if any. *)
Record Turn : Type := {
  session : list ChatMessage;
  table : option (list Display.Row);
  chart : option (list (string * float));
  raised : option string
}.

(** One submission of the chat input.  The prompt is appended to the
    session's messages, one of the three modes answers, and the answer is
    appended; an exception that no [try] catches ends the run where it is
    raised.  [w] is the world at the submission and [later] the world at the
    second call of [fetch_ihsg_weekly_data], the same as [w] as long as the
    cached result of the first call is served. *)
Definition chat_turn (w later : World) (prompt : string)
    (messages : list ChatMessage) : Log -> Turn * Log :=
  fun log =>
  let messages := (messages ++ [{| role := "user"; content := prompt |}])%list in
  let answered response table chart := {|
    session := (messages ++ [{| role := "assistant"; content := response |}])%list;
    table := table; chart := chart; raised := None |} in
  let ended e table := {|
    session := messages; table := table; chart := None; raised := Some e |} in
  if is_ihsg_weekly_request prompt then
    match get_ihsg_weekly_data_and_format w log with
    | (Return (WeeklyReport response df), log') =>
        match line_chart (fetch_ihsg_weekly_data later) with
        | Return chart => (answered response (Some df) chart, log')
        | Raise e => (ended e (Some df), log')
        end
    | (Return (WeeklyMessage response), log') => (answered response None None, log')
    | (Raise e, log') => (ended e None, log')
    end
  else if is_ihsg_data_request prompt then
    match get_ihsg_data_and_format w log with
    | (Return response, log') => (answered response None None, log')
    | (Raise e, log') => (ended e None, log')
    end
  else
    match get_llm_response w prompt messages log with
    | (Return response, log') => (answered response None None, log')
    | (Raise e, log') => (ended e None, log')
    end.

(** ** Reference notions and sample data *)

(** [m] is a maximum of [xs]: one of its items, with no item above it. *)
Definition maximum_of (m : float) (xs : list float) : Prop :=
  In m xs /\ forall x, In x xs -> (m <? x)%float = false.

(** [m] is a minimum of [xs]: one of its items, with no item below it. *)
Definition minimum_of (m : float) (xs : list float) : Prop :=
  In m xs /\ forall x, In x xs -> (x <? m)%float = false.

(** No item of [xs] is a NaN. *)
Definition all_numbers (xs : list float) : Prop :=
  forall x, In x xs -> PrimFloat.is_nan x = false.

(** A row of the provider with the given day and closing price. *)
Definition sample_row (d : Z) (c : float) : Hist.Row := {|
  Hist.idx := {| to_ordinal := d |};
  Hist.Open := c;
  Hist.High := (c + 1)%float;
  Hist.Low := (c - 1)%float;
  Hist.Close := c;
  Hist.Volume := 1000%float
|}.

(** A world whose provider answers [rows] and whose model answers [llm]. *)
Definition sample_world (rows : PyResult (list Hist.Row))
    (llm : list BaseMessage -> PyResult string) : World := {|
  history := fun _ => rows;
  strftime := fun t fmt => Py.str_of_int (to_ordinal t) ++ " " ++ fmt;
  now := {| to_ordinal := 10 |};
  llm_invoke := llm
|}.

Definition llm_down : list BaseMessage -> PyResult string :=
  fun _ => Raise "503 Service Unavailable".

Definition llm_up : list BaseMessage -> PyResult string :=
  fun _ => Return "Baik.".

(** Seven trading days with the closes 100, 105, 103, 110, 108, 112, 115. *)
Definition sample_week : list Hist.Row :=
  [sample_row 1 100; sample_row 2 105; sample_row 3 103; sample_row 4 110;
   sample_row 5 108; sample_row 6 112; sample_row 7 115].

(** The weekly series built from [sample_week]. *)
Definition sample_bars : list Bar.t :=
  fold_left (append_bar (sample_world (Return sample_week) llm_down)) sample_week [].

(** A bar carries the fields of the row it was built from. *)
Definition built_from (w : World) (b : Bar.t) (r : Hist.Row) : Prop :=
  Bar.date b = strftime w (Hist.idx r) "%d %b %Y" /\
  Bar.day b = strftime w (Hist.idx r) "%A" /\
  Bar.close b = Hist.Close r /\
  Bar.open b = Hist.Open r /\
  Bar.high b = Hist.High r /\
  Bar.low b = Hist.Low r /\
  Bar.volume b = Hist.Volume r.

(** The changes recorded in a series: none on the first bar, and on every
    other bar the difference with the close of the bar before it. *)
Definition bar_changes (bars : list Bar.t) : Prop :=
  (forall b, nth_error bars 0 = Some b ->
     Bar.change b = 0%float /\ Bar.change_pct b = 0%float) /\
  (forall i p b, nth_error bars i = Some p -> nth_error bars (S i) = Some b ->
     Bar.change b = (Bar.close b - Bar.close p)%float /\
     Bar.change_pct b = (Bar.change b / Bar.close p * 100)%float).

(** The series of a single trading day. *)
Definition sample_day : list Bar.t :=
  fold_left (append_bar (sample_world (Return [sample_row 1 100]) llm_down))
            [sample_row 1 100] [].

(** Two trading days, the first of which closed at zero. *)
Definition zero_then_five : list Hist.Row := [sample_row 1 0; sample_row 2 5].

(** The cause reported for a fetch that gave no data. *)
Definition failure_reason {A : Type} (f : Fetched A) : option string :=
  match f with
  | NoData => Some "Data tidak tersedia"
  | Failed error_msg => Some error_msg
  | Data _ => None
  end.

(** The number of calls a computation makes to the model, from an empty log. *)
Definition model_calls {A : Type} (m : Eff A) : nat := length (snd (Eff.run m)).

(** A turn as it is replayed to the model: a user turn unchanged; an assistant
    turn cut to its first 500 characters and an ellipsis when it is longer. *)
Definition replay (msg : ChatMessage) : BaseMessage :=
  if (role msg =? "user")%string then HumanMessage (content msg)
  else if (500 <? PyStr.len (content msg))%nat
       then AIMessage (PyStr.slice_to 500 (content msg) ++ "...")
       else AIMessage (content msg).

Definition user_or_assistant (msg : ChatMessage) : Prop :=
  role msg = "user" \/ role msg = "assistant".

(** [s * n] *)
Fixpoint repeat_string (s : string) (n : nat) : string :=
  match n with
  | O => EmptyString
  | S n' => s ++ repeat_string s n'
  end.

(** 300 accented letters: 300 characters in 600 bytes. *)
Definition accents : string := repeat_string "é" 300.

(** Ten turns; the fifth, of the assistant, is as long as the greeting (651
    characters in 666 bytes) and the seventh is [accents]. *)
Definition sample_history : list ChatMessage :=
  [{| role := "assistant"; content := "Selamat datang" |};
   {| role := "user"; content := "Apa itu saham?" |};
   {| role := "assistant"; content := "Saham adalah bukti kepemilikan." |};
   {| role := "user"; content := "Apa itu obligasi?" |};
   {| role := "assistant"; content := greeting |};
   {| role := "user"; content := "Apa itu reksa dana?" |};
   {| role := "assistant"; content := accents |};
   {| role := "user"; content := "Apa itu dividen?" |};
   {| role := "assistant"; content := "Pembagian laba." |};
   {| role := "user"; content := "Apa itu emiten?" |}].

(** [t] is the total of [xs]: zero for no number, and the total of the
    numbers before the last plus the last. *)
Inductive running_total : list float -> float -> Prop :=
  | total_nil : running_total [] 0%float
  | total_snoc (xs : list float) (t x : float) :
      running_total xs t -> running_total (xs ++ [x]) (t + x)%float.

(** The sidebar's count of questions:
    [len([m for m in st.session_state.messages if m['role'] == 'user'])]. *)
Definition user_msgs (messages : list ChatMessage) : nat :=
  length (filter (fun m => (role m =? "user")%string) messages).

(** The messages a turn contributes to the replay: none when its role is
    neither user nor assistant. *)
Definition replay_turn (msg : ChatMessage) : list BaseMessage :=
  if (role msg =? "user")%string then [HumanMessage (content msg)]
  else if (role msg =? "assistant")%string
       then [AIMessage (replayed_content (content msg))]
       else [].

(** The weekly keywords that do not hold another weekly keyword. *)
Definition weekly_core : list string :=
  ["seminggu"; "minggu ini"; "7 hari"; "mingguan"; "weekly";
   "tren minggu"; "grafik minggu"; "chart minggu"].

(** The data keywords that do not hold another data keyword. *)
Definition data_core : list string :=
  ["ihsg"; "indeks harga saham gabungan"; "jkse"; "bursa hari ini"; "idx";
   "indeks komposit"; "bursa saham indonesia"; "saham hari ini";
   "pasar modal hari ini"].

(** Every keyword of [full] holds a keyword of [core], and [core] is a part of
    [full]. *)
Definition subsumes (core full : list string) : bool :=
  forallb (fun k => existsb (fun k' => PyStr.contains k' k) core) full
  && forallb (fun k' => existsb (String.eqb k') full) core.

(** The weekly series built from [zero_then_five]. *)
Definition zero_bars : list Bar.t :=
  fold_left (append_bar (sample_world (Return zero_then_five) llm_down))
            zero_then_five [].

(** * Properties *)

(** ** Substring search *)

Lemma startswith_iff (p s : string) :
  PyStr.startswith p s = true <-> exists post, s = p ++ post.
Proof.
  revert s; induction p as [|a p IH]; intros s; simpl.
  - split; [intros _; now exists s | reflexivity].
  - destruct s as [|b s].
    + split; [discriminate | intros [post H]; discriminate].
    + rewrite andb_true_iff, Ascii.eqb_eq, IH. split.
      * intros [-> [post ->]]. now exists post.
      * intros [post H]. injection H as -> ->. split; [reflexivity | now exists post].
Qed.

Lemma contains_iff (sub s : string) :
  PyStr.contains sub s = true <-> exists pre post, s = pre ++ sub ++ post.
Proof.
  induction s as [|c s IH].
  - cbn [PyStr.contains]. rewrite orb_false_r, startswith_iff. split.
    + intros [post H]. now exists "", post.
    + intros [pre [post H]]. destruct pre; [now exists post | discriminate].
  - cbn [PyStr.contains]. rewrite orb_true_iff, startswith_iff, IH. split.
    + intros [[post H] | [pre [post H]]].
      * now exists "", post.
      * exists (String c pre), post. simpl. now rewrite H.
    + intros [pre [post H]]. destruct pre as [|c' pre].
      * left. now exists post.
      * right. simpl in H. injection H as _ H. now exists pre, post.
Qed.

Lemma any_in_iff (keywords : list string) (text : string) :
  any_in keywords text = true <->
  exists kw pre post, In kw keywords /\ text = pre ++ kw ++ post.
Proof.
  unfold any_in. rewrite existsb_exists. split.
  - intros [kw [Hin H]]. apply contains_iff in H as [pre [post H]].
    now exists kw, pre, post.
  - intros [kw [pre [post [Hin H]]]]. exists kw. split; [assumption|].
    apply contains_iff. now exists pre, post.
Qed.

Lemma has_marker_iff (markers : list string) (utterance : string) :
  has_marker markers utterance <-> any_in markers (PyStr.lower utterance) = true.
Proof. unfold has_marker. now rewrite any_in_iff. Qed.

Lemma contains_here (x rest : string) : PyStr.contains x (x ++ rest) = true.
Proof. apply contains_iff. now exists "", rest. Qed.

Lemma contains_app_r (x a b : string) :
  PyStr.contains x b = true -> PyStr.contains x (a ++ b) = true.
Proof.
  rewrite !contains_iff. intros [pre [post ->]]. exists (a ++ pre), post.
  induction a as [|c a IH]; simpl; [reflexivity | now rewrite IH].
Qed.

(** ** Routing *)

Lemma weekly_marker_routes_weekly (u : string) :
  has_marker weekly_keywords u -> classify u = WeeklySeriesRequest.
Proof.
  intros H. apply has_marker_iff in H. unfold classify, is_ihsg_weekly_request.
  now rewrite H.
Qed.

Lemma no_weekly_marker (u : string) :
  ~ has_marker weekly_keywords u -> is_ihsg_weekly_request u = false.
Proof.
  intros H. unfold is_ihsg_weekly_request.
  destruct (any_in weekly_keywords (PyStr.lower u)) eqn:E; [|reflexivity].
  exfalso. apply H. now apply has_marker_iff.
Qed.

(** C1, as stated, fails: the utterance "Jelaskan pergerakan IHSG seminggu
    terakhir" holds the educational marker "jelaskan" and is not classified
    Educational, because the handler tests the weekly keywords first and that
    test has no exclusion pass. *)
Lemma exclusion_does_not_override_weekly :
  ~ (forall u, has_marker exclusion_words u -> classify u = Educational).
Proof.
  intros H.
  specialize (H "Jelaskan pergerakan IHSG seminggu terakhir").
  assert (E : classify "Jelaskan pergerakan IHSG seminggu terakhir"
              = WeeklySeriesRequest) by (vm_compute; reflexivity).
  rewrite E in H. discriminate H.
  apply has_marker_iff. vm_compute. reflexivity.
Qed.

(** C1 (amended): an utterance that holds an educational marker and no weekly
    marker is Educational, whatever data keyword it also holds; an utterance
    that holds a weekly marker is a WeeklySeriesRequest even when it holds an
    educational marker. *)
Theorem exclusion_overrides_data_keywords (u : string) :
  has_marker exclusion_words u ->
  (~ has_marker weekly_keywords u -> classify u = Educational) /\
  (has_marker weekly_keywords u -> classify u = WeeklySeriesRequest).
Proof.
  intros Hex. split.
  - intros Hw. apply has_marker_iff in Hex.
    unfold classify, is_ihsg_data_request.
    now rewrite (no_weekly_marker u Hw), Hex.
  - apply weekly_marker_routes_weekly.
Qed.

Lemma exclusion_overrides_data_keywords_witness :
  has_marker data_keywords "Apa itu IHSG?" /\
  classify "Apa itu IHSG?" = Educational.
Proof.
  split.
  - apply has_marker_iff. vm_compute. reflexivity.
  - apply (exclusion_overrides_data_keywords "Apa itu IHSG?").
    + apply has_marker_iff. vm_compute. reflexivity.
    + intros H. apply has_marker_iff in H. vm_compute in H. discriminate H.
Defined.

(** C6: an utterance that holds a weekly marker and no educational marker is
    a WeeklySeriesRequest, wherever the marker stands in the utterance and
    whatever latest-quote keyword stands beside it. *)
Theorem weekly_marker_wins (u : string) :
  has_marker weekly_keywords u ->
  ~ has_marker exclusion_words u ->
  classify u = WeeklySeriesRequest.
Proof. intros Hw _. now apply weekly_marker_routes_weekly. Qed.

Lemma weekly_marker_wins_witness :
  has_marker data_keywords "pergerakan ihsg seminggu terakhir" /\
  classify "pergerakan ihsg seminggu terakhir" = WeeklySeriesRequest.
Proof.
  split.
  - apply has_marker_iff. vm_compute. reflexivity.
  - apply (weekly_marker_wins "pergerakan ihsg seminggu terakhir").
    + apply has_marker_iff. vm_compute. reflexivity.
    + intros H. apply has_marker_iff in H. vm_compute in H. discriminate H.
Defined.

(** ** The order of binary64 values *)

Lemma SFltb_irrefl (x : spec_float) : SFltb x x = false.
Proof.
  unfold SFltb. destruct x as [[]|[]| |[] m e]; cbn; try reflexivity;
    rewrite Z.compare_refl, Pos.compare_cont_refl; reflexivity.
Qed.

Lemma SFltb_above (m x y : spec_float) :
  SFltb m x = false -> SFltb m y = true -> SFltb y x = false.
Proof.
  unfold SFltb.
  destruct m as [[]|[]| |[] mm me], x as [[]|[]| |[] xm xe],
           y as [[]|[]| |[] ym ye];
    cbn; try discriminate; try reflexivity.
  all: destruct (Z.compare_spec me xe); destruct (Z.compare_spec me ye);
       destruct (Z.compare_spec ye xe); try lia; try discriminate;
       try reflexivity; subst; rewrite ?Pos.compare_cont_spec; cbn;
       destruct (Pos.compare_spec mm xm); destruct (Pos.compare_spec mm ym);
       destruct (Pos.compare_spec ym xm); cbn; try lia; try discriminate;
       try reflexivity.
Qed.

Lemma SFltb_below (m x y : spec_float) :
  SFltb x m = false -> SFltb y m = true -> SFltb x y = false.
Proof.
  unfold SFltb.
  destruct m as [[]|[]| |[] mm me], x as [[]|[]| |[] xm xe],
           y as [[]|[]| |[] ym ye];
    cbn; try discriminate; try reflexivity.
  all: destruct (Z.compare_spec xe me); destruct (Z.compare_spec ye me);
       destruct (Z.compare_spec xe ye); try lia; try discriminate;
       try reflexivity; subst; rewrite ?Pos.compare_cont_spec; cbn;
       destruct (Pos.compare_spec xm mm); destruct (Pos.compare_spec ym mm);
       destruct (Pos.compare_spec xm ym); cbn; try lia; try discriminate;
       try reflexivity.
Qed.

Lemma SFleb_total (x y : spec_float) :
  x <> S754_nan -> y <> S754_nan -> SFltb x y = false -> SFleb y x = true.
Proof.
  unfold SFltb, SFleb. intros Hx Hy.
  destruct x as [[]|[]| |[] xm xe], y as [[]|[]| |[] ym ye];
    cbn; try discriminate; try reflexivity; try congruence.
  all: rewrite (Z.compare_antisym xe ye), ?Pos.compare_cont_spec,
         (Pos.compare_antisym xm ym);
       destruct (Z.compare xe ye); cbn; try discriminate; try reflexivity;
       destruct (Pos.compare xm ym); cbn; try discriminate; reflexivity.
Qed.

Lemma ltb_irrefl (x : float) : (x <? x)%float = false.
Proof. rewrite FloatAxioms.ltb_spec. apply SFltb_irrefl. Qed.

Lemma ltb_above (m x y : float) :
  (m <? x)%float = false -> (m <? y)%float = true -> (y <? x)%float = false.
Proof. rewrite !FloatAxioms.ltb_spec. apply SFltb_above. Qed.

Lemma ltb_below (m x y : float) :
  (x <? m)%float = false -> (y <? m)%float = true -> (x <? y)%float = false.
Proof. rewrite !FloatAxioms.ltb_spec. apply SFltb_below. Qed.

Lemma number_not_nan (x : float) :
  PrimFloat.is_nan x = false -> Prim2SF x <> S754_nan.
Proof.
  unfold PrimFloat.is_nan. rewrite FloatAxioms.eqb_spec. intros H E. rewrite E in H.
  discriminate H.
Qed.

Lemma leb_total (x y : float) :
  PrimFloat.is_nan x = false -> PrimFloat.is_nan y = false ->
  (x <? y)%float = false -> (y <=? x)%float = true.
Proof.
  intros Hx Hy. rewrite FloatAxioms.ltb_spec, FloatAxioms.leb_spec.
  apply SFleb_total; now apply number_not_nan.
Qed.

Lemma ltb_asym (x y : float) : (x <? y)%float = true -> (y <? x)%float = false.
Proof.
  intros H. apply (ltb_above x x y); [apply ltb_irrefl | assumption].
Qed.

Lemma eqb_not_ltb (x y : float) :
  (x =? y)%float = true -> (x <? y)%float = false /\ (y <? x)%float = false.
Proof.
  rewrite FloatAxioms.eqb_spec, !FloatAxioms.ltb_spec. unfold SFeqb, SFltb.
  destruct (Prim2SF x) as [[]|[]| |[] xm xe], (Prim2SF y) as [[]|[]| |[] ym ye];
    cbn; try discriminate; try (split; reflexivity).
  all: rewrite (Z.compare_antisym xe ye), ?Pos.compare_cont_spec,
         (Pos.compare_antisym xm ym);
       destruct (Z.compare xe ye); cbn; try discriminate;
       destruct (Pos.compare xm ym); cbn; try discriminate; split; reflexivity.
Qed.

(** ** [max], [min] and the weekly statistics *)

Lemma max_fold (rest seen : list float) (m : float) :
  In m seen -> (forall y, In y seen -> (m <? y)%float = false) ->
  maximum_of
    (fold_left (fun maxitem item => if (maxitem <? item)%float then item else maxitem)
               rest m)
    (seen ++ rest)%list.
Proof.
  revert seen m. induction rest as [|item rest IH]; intros seen m Hin Hub.
  - rewrite app_nil_r. now split.
  - cbn [fold_left].
    replace (seen ++ item :: rest)%list with ((seen ++ [item]) ++ rest)%list
      by (now rewrite <- app_assoc).
    apply IH.
    + destruct (m <? item)%float; apply in_or_app; [right; now left | now left].
    + intros y Hy. apply in_app_or in Hy as [Hy | [<- | []]].
      * destruct (m <? item)%float eqn:E; [|now apply Hub].
        apply (ltb_above m); [now apply Hub | assumption].
      * destruct (m <? item)%float eqn:E; [apply ltb_irrefl | assumption].
Qed.

Lemma min_fold (rest seen : list float) (m : float) :
  In m seen -> (forall y, In y seen -> (y <? m)%float = false) ->
  minimum_of
    (fold_left (fun minitem item => if (item <? minitem)%float then item else minitem)
               rest m)
    (seen ++ rest)%list.
Proof.
  revert seen m. induction rest as [|item rest IH]; intros seen m Hin Hlb.
  - rewrite app_nil_r. now split.
  - cbn [fold_left].
    replace (seen ++ item :: rest)%list with ((seen ++ [item]) ++ rest)%list
      by (now rewrite <- app_assoc).
    apply IH.
    + destruct (item <? m)%float; apply in_or_app; [right; now left | now left].
    + intros y Hy. apply in_app_or in Hy as [Hy | [<- | []]].
      * destruct (item <? m)%float eqn:E; [|now apply Hlb].
        apply (ltb_below m); [now apply Hlb | assumption].
      * destruct (item <? m)%float eqn:E; [apply ltb_irrefl | assumption].
Qed.

Lemma max_is_maximum (xs : list float) :
  xs <> [] -> exists m, Py.max xs = Return m /\ maximum_of m xs.
Proof.
  destruct xs as [|x rest]; [congruence | intros _].
  eexists. split; [reflexivity|].
  apply (max_fold rest [x] x); [now left|].
  intros y [<- | []]. apply ltb_irrefl.
Qed.

Lemma min_is_minimum (xs : list float) :
  xs <> [] -> exists m, Py.min xs = Return m /\ minimum_of m xs.
Proof.
  destruct xs as [|x rest]; [congruence | intros _].
  eexists. split; [reflexivity|].
  apply (min_fold rest [x] x); [now left|].
  intros y [<- | []]. apply ltb_irrefl.
Qed.

(** Among numbers, a maximum is above every item and a minimum below. *)
Lemma maximum_of_numbers (m : float) (xs : list float) :
  all_numbers xs -> maximum_of m xs ->
  forall x, In x xs -> (x <=? m)%float = true.
Proof.
  intros Hn [Hin Hub] x Hx. apply leb_total; auto.
Qed.

Lemma minimum_of_numbers (m : float) (xs : list float) :
  all_numbers xs -> minimum_of m xs ->
  forall x, In x xs -> (m <=? x)%float = true.
Proof.
  intros Hn [Hin Hlb] x Hx. apply leb_total; auto.
Qed.

Lemma last_cons {A : Type} (y : A) (rest : list A) (d : A) :
  last (y :: rest) d = last rest y.
Proof.
  revert y d. induction rest as [|z rest IH]; intros y d; [reflexivity|].
  change (last (y :: z :: rest) d) with (last (z :: rest) d).
  now rewrite (IH z d), (IH z y).
Qed.

Lemma nth_error_last {A : Type} (x : A) (rest : list A) :
  nth_error (x :: rest) (length rest) = Some (last rest x).
Proof.
  revert x. induction rest as [|y rest IH]; intros x; [reflexivity|].
  cbn [length nth_error]. now rewrite IH, last_cons.
Qed.

Lemma getitem_last {A : Type} (x : A) (rest : list A) :
  Py.getitem (x :: rest) (-1) = Return (last rest x).
Proof.
  unfold Py.getitem.
  replace (-1 <? 0)%Z with true by reflexivity. cbv zeta.
  replace (-1 + Z.of_nat (length (x :: rest)))%Z with (Z.of_nat (length rest))
    by (cbn [length]; lia).
  replace (Z.of_nat (length rest) <? 0)%Z with false by (symmetry; apply Z.ltb_ge; lia).
  now rewrite Nat2Z.id, nth_error_last.
Qed.

Lemma getitem_first {A : Type} (x : A) (rest : list A) :
  Py.getitem (x :: rest) 0 = Return x.
Proof. reflexivity. Qed.

Lemma last_app_singleton {A : Type} (xs : list A) (x d : A) :
  last (xs ++ [x]) d = x.
Proof.
  induction xs as [|y xs IH]; [reflexivity|].
  cbn [app]. destruct (xs ++ [x])%list eqn:E; [now destruct xs | exact IH].
Qed.

Lemma sum_snoc (xs : list float) (x : float) :
  Py.sum (xs ++ [x]) = (Py.sum xs + x)%float.
Proof. unfold Py.sum. now rewrite fold_left_app. Qed.

Lemma sum_running_total (xs : list float) : running_total xs (Py.sum xs).
Proof.
  induction xs as [|x xs IH] using rev_ind.
  - constructor.
  - rewrite sum_snoc. now constructor.
Qed.

Lemma running_total_unique (xs : list float) (t : float) :
  running_total xs t -> t = Py.sum xs.
Proof.
  intros H. induction H as [|xs t x H IH]; [reflexivity|].
  now rewrite sum_snoc, IH.
Qed.

(** The statistics of a series that is not empty, field by field. *)
Lemma weekly_statistics_nonempty (first : Bar.t) (rest : list Bar.t) :
  exists s,
    weekly_statistics (first :: rest) = Return s /\
    latest s = last rest first /\
    oldest s = first /\
    week_change s = (Bar.close (last rest first) - Bar.close first)%float /\
    week_change_pct s = (week_change s / Bar.close first * 100)%float /\
    maximum_of (highest s) (map Bar.high (first :: rest)) /\
    minimum_of (lowest s) (map Bar.low (first :: rest)) /\
    avg_close s = (Py.sum (map Bar.close (first :: rest))
                   / Py.float_of_nat (length (first :: rest)))%float.
Proof.
  destruct (max_is_maximum (map Bar.high (first :: rest))) as [hi [Ehi Hhi]];
    [discriminate|].
  destruct (min_is_minimum (map Bar.low (first :: rest))) as [lo [Elo Hlo]];
    [discriminate|].
  unfold weekly_statistics.
  rewrite getitem_last, getitem_first. cbn [Py.bind].
  rewrite Ehi, Elo. cbn [Py.bind].
  eexists. split; [reflexivity|]. cbn. repeat split; try apply Hhi; try apply Hlo.
Qed.

Lemma weekly_status_cases (week_change : float) :
  ((0 <? week_change)%float = true -> weekly_status week_change = "📈 MENGUAT") /\
  ((week_change <? 0)%float = true -> weekly_status week_change = "📉 MELEMAH") /\
  ((week_change =? 0)%float = true -> weekly_status week_change = "➡️ STAGNAN").
Proof.
  unfold weekly_status. repeat split.
  - now intros ->.
  - intros H. now rewrite (ltb_asym _ _ H), H.
  - intros H. apply eqb_not_ltb in H as [H1 H2]. now rewrite H1, H2.
Qed.

(** C2: for a series of at least two bars the weekly statistics are: the
    change of the period, last close minus first close; its percentage, the
    change divided by the first close, times 100; the highest of the highs and
    the lowest of the lows; the mean of the closes, their total divided by
    their number; and the label of the trend by the sign of the change.  For
    the closes 100, 105, 103, 110, 108, 112, 115 the change is 15, the
    percentage 15.0, the mean 753 / 7 and the trend is up. *)
Theorem weekly_statistics_formulas :
  (forall weekly_data, 2 <= length weekly_data ->
     exists s first middle last,
       weekly_data = (first :: middle ++ [last])%list /\
       weekly_statistics weekly_data = Return s /\
       week_change s = (Bar.close last - Bar.close first)%float /\
       week_change_pct s = (week_change s / Bar.close first * 100)%float /\
       maximum_of (highest s) (map Bar.high weekly_data) /\
       minimum_of (lowest s) (map Bar.low weekly_data) /\
       (exists t, running_total (map Bar.close weekly_data) t /\
                  avg_close s
                  = (t / Py.float_of_nat (length weekly_data))%float) /\
       ((0 <? week_change s)%float = true ->
          weekly_status (week_change s) = "📈 MENGUAT") /\
       ((week_change s <? 0)%float = true ->
          weekly_status (week_change s) = "📉 MELEMAH") /\
       ((week_change s =? 0)%float = true ->
          weekly_status (week_change s) = "➡️ STAGNAN"))
  /\
  (forall weekly_data,
     map Bar.close weekly_data = [100; 105; 103; 110; 108; 112; 115]%float ->
     exists s,
       weekly_statistics weekly_data = Return s /\
       week_change s = 15%float /\
       week_change_pct s = 15%float /\
       avg_close s = (753 / 7)%float /\
       weekly_status (week_change s) = "📈 MENGUAT").
Proof.
  split.
  - intros [|first rest] Hlen; [cbn in Hlen; lia|].
    destruct (exists_last (l := rest)) as [middle [last Erest]].
    { intros ->. cbn in Hlen. lia. }
    destruct (weekly_statistics_nonempty first rest)
      as (s & Es & _ & _ & Hwc & Hpct & Hmax & Hmin & Havg).
    rewrite Erest, last_app_singleton in Hwc.
    exists s, first, middle, last. rewrite <- Erest.
    split; [reflexivity|]. split; [exact Es|]. split; [exact Hwc|].
    split; [exact Hpct|]. split; [exact Hmax|]. split; [exact Hmin|].
    split; [|apply weekly_status_cases].
    exists (Py.sum (map Bar.close (first :: rest))).
    split; [apply sum_running_total | exact Havg].
  - intros [|first rest] Hc; [discriminate|].
    destruct (weekly_statistics_nonempty first rest)
      as (s & Es & _ & _ & Hwc & Hpct & _ & _ & Havg).
    exists s. split; [assumption|].
    rewrite Hc in Havg.
    destruct rest as [|b2 [|b3 [|b4 [|b5 [|b6 [|b7 [|b8 rest]]]]]]];
      try discriminate Hc.
    cbn in Hc. injection Hc as H1 _ _ _ _ _ H7.
    cbn [last] in Hwc. rewrite H1, H7 in Hwc. rewrite H1 in Hpct.
    assert (E : week_change s = 15%float) by (rewrite Hwc; reflexivity).
    rewrite Hpct, E, Havg. repeat split; reflexivity.
Qed.

Lemma weekly_statistics_formulas_witness :
  exists s,
    weekly_statistics sample_bars = Return s /\
    week_change s = 15%float /\
    week_change_pct s = 15%float /\
    avg_close s = (753 / 7)%float /\
    PrimFloat.eqb (highest s) 116 = true /\
    PrimFloat.eqb (lowest s) 99 = true /\
    weekly_status (week_change s) = "📈 MENGUAT".
Proof.
  destruct (proj1 weekly_statistics_formulas sample_bars)
    as (s & first & middle & last & _ & Es & _).
  - vm_compute. lia.
  - exists s. vm_compute in Es. injection Es as <-. vm_compute. repeat split.
Defined.

(** ** The weekly fetch *)

Lemma tail_suffix (n : nat) (hist : list Hist.Row) :
  exists older, hist = (older ++ tail n hist)%list /\
                length (tail n hist) = Nat.min n (length hist).
Proof.
  unfold tail. exists (firstn (length hist - n) hist). split.
  - now rewrite firstn_skipn.
  - rewrite length_skipn. lia.
Qed.

Lemma fetch_ihsg_weekly_data_cases (w : World) :
  match history w "1mo" with
  | Raise e => fetch_ihsg_weekly_data w = Failed e
  | Return [] => fetch_ihsg_weekly_data w = NoData
  | Return hist =>
      fetch_ihsg_weekly_data w = Data (fold_left (append_bar w) (tail 7 hist) [])
  end.
Proof.
  unfold fetch_ihsg_weekly_data.
  destruct (history w "1mo") as [[|r hist]|e]; reflexivity.
Qed.

Lemma append_bar_app (w : World) (acc : list Bar.t) (row : Hist.Row) :
  exists b, append_bar w acc row = (acc ++ [b])%list /\ built_from w b row /\
    match Py.last_item acc with
    | Some p => Bar.change b = (Bar.close b - Bar.close p)%float /\
                Bar.change_pct b = (Bar.change b / Bar.close p * 100)%float
    | None => Bar.change b = 0%float /\ Bar.change_pct b = 0%float
    end.
Proof.
  unfold append_bar. destruct (Py.last_item acc) as [p|];
    (eexists; split; [reflexivity|]; split; [repeat split|]; split; reflexivity).
Qed.

Lemma fold_append_bar (w : World) (rows : list Hist.Row) (acc : list Bar.t) :
  exists bars, fold_left (append_bar w) rows acc = (acc ++ bars)%list /\
               Forall2 (built_from w) bars rows.
Proof.
  revert acc. induction rows as [|row rows IH]; intros acc.
  - exists []. split; [now rewrite app_nil_r | constructor].
  - cbn [fold_left]. destruct (append_bar_app w acc row) as (b & -> & Hb & _).
    destruct (IH (acc ++ [b])%list) as (bars & -> & Hbars).
    exists (b :: bars). split; [now rewrite <- app_assoc | now constructor].
Qed.

Lemma last_item_none {A : Type} (xs : list A) : Py.last_item xs = None -> xs = [].
Proof.
  unfold Py.last_item. intros H. apply nth_error_None in H.
  destruct xs; [reflexivity | cbn in H; lia].
Qed.

Lemma append_bar_changes (w : World) (acc : list Bar.t) (row : Hist.Row) :
  bar_changes acc -> bar_changes (append_bar w acc row).
Proof.
  intros [H0 HS]. destruct (append_bar_app w acc row) as (b & -> & _ & Hb).
  split.
  - intros b0 E. destruct acc as [|a acc].
    + cbn in E. injection E as <-. exact Hb.
    + apply H0. exact E.
  - intros i p b1 Ep Eb.
    assert (Hi : S i < length (acc ++ [b])%list)
      by (apply nth_error_Some; congruence).
    rewrite length_app in Hi. cbn in Hi.
    destruct (Nat.eq_dec (S i) (length acc)) as [Elen | Nlen].
    + rewrite nth_error_app2 in Eb by lia.
      replace (S i - length acc) with 0 in Eb by lia.
      cbn in Eb. injection Eb as <-.
      rewrite nth_error_app1 in Ep by lia.
      unfold Py.last_item in Hb.
      replace (length acc - 1) with i in Hb by lia.
      rewrite Ep in Hb. exact Hb.
    + rewrite nth_error_app1 in Ep by lia.
      rewrite nth_error_app1 in Eb by lia.
      now apply (HS i).
Qed.

Lemma fold_append_bar_changes (w : World) (rows : list Hist.Row) (acc : list Bar.t) :
  bar_changes acc -> bar_changes (fold_left (append_bar w) rows acc).
Proof.
  revert acc. induction rows as [|row rows IH]; intros acc H; [exact H|].
  cbn [fold_left]. apply IH. now apply append_bar_changes.
Qed.

Lemma bar_changes_nil : bar_changes [].
Proof.
  split.
  - intros b E. discriminate E.
  - intros i p b E. destruct i; discriminate E.
Qed.

(** C8: the series returned by the weekly fetch is built, in the provider's
    order (oldest first), from the last rows of the history, seven at most;
    its first bar records no change, and every other bar records the
    difference between its close and the close of the bar before it, and that
    difference divided by the earlier close, times 100. *)
Theorem weekly_series_invariant (w : World) (bars : list Bar.t) :
  fetch_ihsg_weekly_data w = Data bars ->
  (exists hist older rows,
     history w "1mo" = Return hist /\
     hist = (older ++ rows)%list /\
     length rows = Nat.min 7 (length hist) /\
     Forall2 (built_from w) bars rows) /\
  (forall b, nth_error bars 0 = Some b ->
     Bar.change b = 0%float /\ Bar.change_pct b = 0%float) /\
  (forall i p b, nth_error bars i = Some p -> nth_error bars (S i) = Some b ->
     Bar.change b = (Bar.close b - Bar.close p)%float /\
     Bar.change_pct b = (Bar.change b / Bar.close p * 100)%float).
Proof.
  intros E. pose proof (fetch_ihsg_weekly_data_cases w) as C.
  destruct (history w "1mo") as [[|r hist]|e] eqn:Eh;
    rewrite C in E; try discriminate E.
  injection E as <-. split.
  - destruct (tail_suffix 7 (r :: hist)) as (older & Eo & Elen).
    destruct (fold_append_bar w (tail 7 (r :: hist)) []) as (bs & Ebs & Hbs).
    exists (r :: hist), older, (tail 7 (r :: hist)).
    rewrite Ebs. cbn [app]. now repeat split.
  - apply (fold_append_bar_changes w _ []). apply bar_changes_nil.
Qed.

Lemma weekly_series_invariant_witness :
  bar_changes sample_bars /\
  map Bar.close sample_bars = [100; 105; 103; 110; 108; 112; 115]%float.
Proof.
  split.
  - apply (weekly_series_invariant (sample_world (Return sample_week) llm_down)).
    vm_compute. reflexivity.
  - vm_compute. reflexivity.
Defined.

Lemma fetch_weekly_nonempty (w : World) (bars : list Bar.t) :
  fetch_ihsg_weekly_data w = Data bars -> bars <> [].
Proof.
  intros E. pose proof (fetch_ihsg_weekly_data_cases w) as C.
  destruct (history w "1mo") as [[|r hist]|e] eqn:Eh;
    rewrite C in E; try discriminate E.
  injection E as <-.
  destruct (tail_suffix 7 (r :: hist)) as (older & _ & Elen).
  destruct (fold_append_bar w (tail 7 (r :: hist)) []) as (bs & -> & Hbs).
  apply Forall2_length in Hbs. cbn [app]. intros ->.
  rewrite <- Hbs in Elen. cbn in Elen. lia.
Qed.

(** C5, as stated, fails: the statistics of the one-bar series [sample_day]
    are computed, no error is raised. *)
Lemma one_bar_statistics_computed :
  ~ (forall weekly_data, length weekly_data < 2 ->
       exists e, weekly_statistics weekly_data = Raise e).
Proof.
  intros H. destruct (H sample_day) as [e E].
  - vm_compute. lia.
  - vm_compute in E. discriminate E.
Qed.

(** C5 (amended): the weekly statistics are computed for every series of at
    least one bar and fail, with an index error, for the empty series alone;
    the weekly fetch gives a series of at least one bar for every history that
    is not empty, and no data for the empty history. *)
Theorem weekly_statistics_defined :
  (forall weekly_data,
     weekly_data <> [] <-> exists s, weekly_statistics weekly_data = Return s) /\
  weekly_statistics [] = Raise "list index out of range" /\
  (forall w hist, history w "1mo" = Return hist ->
     (hist = [] -> fetch_ihsg_weekly_data w = NoData) /\
     (hist <> [] -> exists bars,
        fetch_ihsg_weekly_data w = Data bars /\
        length bars = Nat.min 7 (length hist) /\ 1 <= length bars)).
Proof.
  split; [|split].
  - intros [|first rest]; split.
    + congruence.
    + intros [s E]. discriminate E.
    + intros _. destruct (weekly_statistics_nonempty first rest) as (s & E & _).
      now exists s.
    + discriminate.
  - reflexivity.
  - intros w hist Eh. pose proof (fetch_ihsg_weekly_data_cases w) as C.
    rewrite Eh in C. split.
    + intros ->. exact C.
    + intros Hne. destruct hist as [|r hist]; [congruence|].
      destruct (tail_suffix 7 (r :: hist)) as (older & _ & Elen).
      destruct (fold_append_bar w (tail 7 (r :: hist)) []) as (bs & Ebs & Hbs).
      exists bs. rewrite C, Ebs. apply Forall2_length in Hbs.
      cbn [app]. repeat split; rewrite Hbs, Elen; cbn [length]; lia.
Qed.

(** ** The latest quote *)

Lemma split_last_two {A : Type} (xs : list A) :
  2 <= length xs -> exists older prev last, xs = (older ++ [prev; last])%list.
Proof.
  intros H. destruct (exists_last (l := xs)) as [xs' [last ->]].
  { intros ->. cbn in H. lia. }
  rewrite length_app in H. cbn in H.
  destruct (exists_last (l := xs')) as [older [prev ->]].
  { intros ->. cbn in H. lia. }
  exists older, prev, last. now rewrite <- app_assoc.
Qed.

Lemma iloc_last (older : list Hist.Row) (prev last : Hist.Row) :
  iloc (older ++ [prev; last]) (-1) = Return last.
Proof.
  unfold iloc, Py.getitem. replace (-1 <? 0)%Z with true by reflexivity.
  cbv zeta. rewrite length_app. cbn [length].
  replace (-1 + Z.of_nat (length older + 2))%Z with (Z.of_nat (length older + 1))
    by lia.
  replace (Z.of_nat (length older + 1) <? 0)%Z with false
    by (symmetry; apply Z.ltb_ge; lia).
  rewrite Nat2Z.id, nth_error_app2 by lia.
  now replace (length older + 1 - length older) with 1 by lia.
Qed.

Lemma iloc_before_last (older : list Hist.Row) (prev last : Hist.Row) :
  iloc (older ++ [prev; last]) (-2) = Return prev.
Proof.
  unfold iloc, Py.getitem. replace (-2 <? 0)%Z with true by reflexivity.
  cbv zeta. rewrite length_app. cbn [length].
  replace (-2 + Z.of_nat (length older + 2))%Z with (Z.of_nat (length older))
    by lia.
  replace (Z.of_nat (length older) <? 0)%Z with false
    by (symmetry; apply Z.ltb_ge; lia).
  rewrite Nat2Z.id, nth_error_app2 by lia.
  now rewrite Nat.sub_diag.
Qed.

(** The outcome of the latest fetch for each answer of the provider. *)
Lemma fetch_ihsg_data_short (w : World) (hist : list Hist.Row) :
  history w "5d" = Return hist -> length hist < 2 -> fetch_ihsg_data w = NoData.
Proof.
  intros Eh Hlen. unfold fetch_ihsg_data. rewrite Eh. cbn [Py.bind].
  replace (length hist <? 2)%nat with true by (symmetry; apply Nat.ltb_lt; lia).
  now rewrite orb_true_r.
Qed.

Lemma fetch_ihsg_data_two (w : World) (older : list Hist.Row) (prev last : Hist.Row) :
  history w "5d" = Return (older ++ [prev; last])%list ->
  exists q,
    fetch_ihsg_data w = Data q /\
    Quote.close q = Hist.Close last /\
    Quote.prev_close q = Hist.Close prev /\
    Quote.change_points q = (Hist.Close last - Hist.Close prev)%float /\
    Quote.change_percent q = (Quote.change_points q / Hist.Close prev * 100)%float.
Proof.
  intros Eh. unfold fetch_ihsg_data. rewrite Eh. cbn [Py.bind].
  assert (Hlen : length (older ++ [prev; last])%list = length older + 2)
    by (rewrite length_app; reflexivity).
  replace (length (older ++ [prev; last])%list =? 0)%nat with false
    by (symmetry; apply Nat.eqb_neq; lia).
  replace (length (older ++ [prev; last])%list <? 2)%nat with false
    by (symmetry; apply Nat.ltb_ge; lia).
  cbn [orb]. rewrite iloc_last, iloc_before_last. cbn [Py.bind caught].
  eexists. split; [reflexivity|]. cbn. repeat split.
Qed.

Lemma fetch_ihsg_data_raised (w : World) (e : string) :
  history w "5d" = Raise e -> fetch_ihsg_data w = Failed e.
Proof. intros Eh. unfold fetch_ihsg_data. now rewrite Eh. Qed.

(** A quotient by zero, times 100, is an infinity or a NaN. *)
Lemma percent_of_zero_base (x z : float) :
  (z =? 0)%float = true ->
  PrimFloat.is_finite (x / z * 100)%float = false.
Proof.
  intros Hz.
  assert (Ez : exists s, Prim2SF z = S754_zero s).
  { rewrite FloatAxioms.eqb_spec in Hz. unfold SFeqb in Hz.
    replace (Prim2SF 0) with (S754_zero false) in Hz by reflexivity.
    destruct (Prim2SF z) as [s|[]| |[] m e]; try discriminate Hz. now exists s. }
  destruct Ez as [s Ez].
  assert (Er : Prim2SF (x / z * 100)%float = S754_nan \/
               exists t, Prim2SF (x / z * 100)%float = S754_infinity t).
  { rewrite FloatAxioms.mul_spec, FloatAxioms.div_spec, Ez.
    replace (Prim2SF 100) with (S754_finite false 7036874417766400 (-46))
      by reflexivity.
    destruct (Prim2SF x) as [sx|sx| |sx m e]; cbn; eauto. }
  unfold PrimFloat.is_finite, PrimFloat.is_nan, PrimFloat.is_infinity.
  rewrite !FloatAxioms.eqb_spec, FloatAxioms.abs_spec.
  replace (Prim2SF infinity) with (S754_infinity false) by reflexivity.
  destruct Er as [-> | [t ->]]; [reflexivity | destruct t; reflexivity].
Qed.

(** C9, as stated, fails: for the history [zero_then_five] the fetch returns a
    quote whose previous close is zero. *)
Lemma zero_previous_close_gives_quote :
  ~ (forall w q, fetch_ihsg_data w = Data q ->
                 (Quote.prev_close q =? 0)%float = false).
Proof.
  intros H.
  destruct (fetch_ihsg_data_two (sample_world (Return zero_then_five) llm_down)
              [] (sample_row 1 0) (sample_row 2 5) eq_refl)
    as (q & Eq & _ & Ep & _).
  specialize (H _ q Eq). rewrite Ep in H. vm_compute in H. discriminate H.
Qed.

(** C9 (amended): the latest fetch does not look at the value of the previous
    close.  For every history of at least two bars it returns a quote whose
    previous close is the close of the bar before the last, zero included, and
    whose change percent is the quotient of the change by that close, times
    100; when the previous close is zero that percentage is an infinity or a
    NaN, and the division does not raise. *)
Theorem quote_keeps_zero_previous_close (w : World) (hist : list Hist.Row) :
  history w "5d" = Return hist ->
  2 <= length hist ->
  exists q older prev last,
    hist = (older ++ [prev; last])%list /\
    fetch_ihsg_data w = Data q /\
    Quote.prev_close q = Hist.Close prev /\
    Quote.change_percent q
      = ((Hist.Close last - Hist.Close prev) / Hist.Close prev * 100)%float /\
    ((Hist.Close prev =? 0)%float = true ->
       PrimFloat.is_finite (Quote.change_percent q) = false).
Proof.
  intros Eh Hlen. destruct (split_last_two hist Hlen) as (older & prev & last & ->).
  destruct (fetch_ihsg_data_two w older prev last Eh)
    as (q & Eq & _ & Ep & Ec & Epct).
  exists q, older, prev, last. rewrite Ec in Epct.
  repeat split; try assumption.
  intros Hz. rewrite Epct. now apply percent_of_zero_base.
Qed.

Lemma quote_keeps_zero_previous_close_witness :
  exists q,
    fetch_ihsg_data (sample_world (Return zero_then_five) llm_down) = Data q /\
    (Quote.prev_close q =? 0)%float = true /\
    Quote.change_percent q = infinity.
Proof.
  destruct (quote_keeps_zero_previous_close
              (sample_world (Return zero_then_five) llm_down) zero_then_five)
    as (q & older & prev & last & _ & Eq & _).
  - reflexivity.
  - vm_compute. lia.
  - exists q. vm_compute in Eq. injection Eq as <-. vm_compute. repeat split.
Defined.

(** C10: a history of fewer than two bars gives no quote, and every quote
    returned takes its close from the last bar of the history and its previous
    close from the bar before it, the change and the change percent being
    computed from these two. *)
Theorem quote_needs_two_bars (w : World) :
  (forall hist, history w "5d" = Return hist -> length hist < 2 ->
     fetch_ihsg_data w = NoData) /\
  (forall q, fetch_ihsg_data w = Data q ->
     exists older prev last,
       history w "5d" = Return (older ++ [prev; last])%list /\
       Quote.close q = Hist.Close last /\
       Quote.prev_close q = Hist.Close prev /\
       Quote.change_points q = (Hist.Close last - Hist.Close prev)%float /\
       Quote.change_percent q
         = (Quote.change_points q / Hist.Close prev * 100)%float).
Proof.
  split.
  - apply fetch_ihsg_data_short.
  - intros q Eq. destruct (history w "5d") as [hist|e] eqn:Eh.
    + destruct (Nat.lt_ge_cases (length hist) 2) as [Hlt | Hge].
      * rewrite (fetch_ihsg_data_short w hist Eh Hlt) in Eq. discriminate Eq.
      * destruct (split_last_two hist Hge) as (older & prev & last & ->).
        destruct (fetch_ihsg_data_two w older prev last Eh) as (q' & Eq' & H).
        rewrite Eq' in Eq. injection Eq as <-.
        now exists older, prev, last.
    + rewrite (fetch_ihsg_data_raised w e Eh) in Eq. discriminate Eq.
Qed.

Lemma quote_needs_two_bars_witness :
  fetch_ihsg_data (sample_world (Return [sample_row 1 100]) llm_down) = NoData /\
  exists q,
    fetch_ihsg_data (sample_world (Return sample_week) llm_down) = Data q /\
    Quote.close q = 115%float /\ Quote.prev_close q = 112%float.
Proof.
  split.
  - apply (proj1 (quote_needs_two_bars
                    (sample_world (Return [sample_row 1 100]) llm_down))
                 [sample_row 1 100]); [reflexivity | cbn; lia].
  - eexists. split; [vm_compute; reflexivity | split; reflexivity].
Defined.

(** ** Fallbacks of the data modes *)

Lemma contains_app_l (x a b : string) :
  PyStr.contains x a = true -> PyStr.contains x (a ++ b) = true.
Proof.
  rewrite !contains_iff. intros [pre [post ->]]. exists pre, (post ++ b).
  induction pre as [|c pre IH]; cbn.
  - induction x as [|c x IHx]; cbn; [reflexivity | now rewrite IHx].
  - now rewrite IH.
Qed.

Ltac find_part :=
  first [ apply contains_here | apply contains_app_r; find_part ].

Lemma stats_text_shows_percent (s : WeeklyStats) :
  PyStr.contains (Py.format_f true false 2 (week_change_pct s)) (stats_text s) = true.
Proof. destruct s. unfold stats_text. cbn [week_change_pct]. find_part. Qed.

Lemma weekly_result_text_shows_stats (ai_analysis stats : string) :
  PyStr.contains stats (weekly_result_text ai_analysis stats) = true.
Proof. unfold weekly_result_text. find_part. Qed.

Lemma contains_trans (x y z : string) :
  PyStr.contains x y = true -> PyStr.contains y z = true ->
  PyStr.contains x z = true.
Proof.
  rewrite (contains_iff y z). intros H [pre [post ->]].
  apply contains_app_r. now apply contains_app_l.
Qed.

Lemma error_response_run (w : World) (error_msg : string) :
  exists text,
    Eff.run (error_response w error_msg) = (Return text, [error_prompt error_msg]) /\
    (forall c, llm_invoke w (error_prompt error_msg) = Return c -> text = c) /\
    (forall e, llm_invoke w (error_prompt error_msg) = Raise e ->
               text = error_fallback).
Proof.
  unfold Eff.run, error_response, Eff.try_except, Eff.invoke.
  destruct (llm_invoke w (error_prompt error_msg)) as [c|e]; cbn.
  - exists c. repeat split; congruence.
  - exists error_fallback. repeat split; congruence.
Qed.

(** C3, as stated, fails: when the weekly fetch fails, the weekly mode answers
    without any call to the language model. *)
Lemma weekly_failure_calls_no_model :
  ~ (forall w, failure_reason (fetch_ihsg_weekly_data w) <> None ->
               model_calls (get_ihsg_weekly_data_and_format w) = 1).
Proof.
  intros H.
  specialize (H (sample_world (Raise "No data found") llm_up)).
  vm_compute in H. assert (E : 0 = 1) by (apply H; discriminate). discriminate E.
Qed.

(** C3 (amended): a failed fetch never makes the response raise.  In the latest
    mode it makes exactly one call to the language model, with the prompt that
    carries the cause, and the answer is the text of the model, or the fixed
    apology when that call fails.  In the weekly mode it makes no call to the
    model and the answer is the fixed apology followed by the cause.  Both
    apologies are not empty. *)
Theorem fetch_failure_fallback (w : World) :
  (forall error_msg, failure_reason (fetch_ihsg_data w) = Some error_msg ->
     exists text,
       Eff.run (get_ihsg_data_and_format w)
         = (Return text, [error_prompt error_msg]) /\
       (forall c, llm_invoke w (error_prompt error_msg) = Return c -> text = c) /\
       (forall e, llm_invoke w (error_prompt error_msg) = Raise e ->
                  text = error_fallback)) /\
  (forall error_msg, failure_reason (fetch_ihsg_weekly_data w) = Some error_msg ->
     Eff.run (get_ihsg_weekly_data_and_format w)
       = (Return (WeeklyMessage (weekly_error_message error_msg)), []) /\
     weekly_error_message error_msg <> "") /\
  error_fallback <> "".
Proof.
  split; [|split].
  - intros error_msg. unfold get_ihsg_data_and_format.
    destruct (fetch_ihsg_data w) as [|e|q]; cbn [failure_reason]; intros E;
      try discriminate E; injection E as <-; apply error_response_run.
  - intros error_msg. unfold get_ihsg_weekly_data_and_format.
    destruct (fetch_ihsg_weekly_data w) as [|e|bars]; cbn [failure_reason]; intros E;
      try discriminate E; injection E as <-; (split; [reflexivity | discriminate]).
  - discriminate.
Qed.

Lemma fetch_failure_fallback_witness :
  Eff.run (get_ihsg_data_and_format (sample_world (Raise "No data found") llm_down))
    = (Return error_fallback, [error_prompt "No data found"]) /\
  Eff.run (get_ihsg_weekly_data_and_format
             (sample_world (Raise "No data found") llm_down))
    = (Return (WeeklyMessage (weekly_error_message "No data found")), []).
Proof.
  pose proof (fetch_failure_fallback (sample_world (Raise "No data found") llm_down))
    as [Hl [Hw _]].
  split.
  - destruct (Hl "No data found" eq_refl) as (text & E & _ & Hf).
    rewrite E. now rewrite (Hf "503 Service Unavailable" eq_refl).
  - exact (proj1 (Hw "No data found" eq_refl)).
Defined.

(** C4: when the weekly fetch succeeds and the call to the language model
    fails, the weekly mode returns the pair of a text and a table: the text
    holds the statistics block, and in it the percentage of the period's
    change as the block formats it; the table has one row for each bar and is
    not empty. *)
Theorem weekly_report_survives_model_failure (w : World) (bars : list Bar.t) :
  fetch_ihsg_weekly_data w = Data bars ->
  exists s,
    weekly_statistics bars = Return s /\
    forall e, llm_invoke w (weekly_prompt (summary_for_ai s bars)) = Raise e ->
      exists text table,
        Eff.run (get_ihsg_weekly_data_and_format w)
          = (Return (WeeklyReport text table),
             [weekly_prompt (summary_for_ai s bars)]) /\
        text = weekly_result_text "Analisis AI tidak tersedia saat ini." (stats_text s) /\
        PyStr.contains (stats_text s) text = true /\
        PyStr.contains (Py.format_f true false 2 (week_change_pct s)) text = true /\
        table = map display_row bars /\
        table <> [].
Proof.
  intros Ef. pose proof (fetch_weekly_nonempty w bars Ef) as Hne.
  destruct bars as [|first rest]; [congruence|].
  destruct (weekly_statistics_nonempty first rest) as (s & Es & _).
  exists s. split; [assumption|]. intros e El.
  exists (weekly_result_text "Analisis AI tidak tersedia saat ini." (stats_text s)),
         (map display_row (first :: rest)).
  split; [|split; [reflexivity|split; [|split; [|split]]]].
  - unfold Eff.run, get_ihsg_weekly_data_and_format. rewrite Ef.
    unfold Eff.bind, Eff.lift, display_df. rewrite Es.
    unfold Eff.try_except, Eff.invoke. rewrite El. reflexivity.
  - apply weekly_result_text_shows_stats.
  - apply (contains_trans _ (stats_text s)).
    + apply stats_text_shows_percent.
    + apply weekly_result_text_shows_stats.
  - reflexivity.
  - discriminate.
Qed.

Lemma weekly_report_survives_model_failure_witness :
  exists text table,
    Eff.run (get_ihsg_weekly_data_and_format
               (sample_world (Return sample_week) llm_down))
      = (Return (WeeklyReport text table), [weekly_prompt
           (match weekly_statistics sample_bars with
            | Return s => summary_for_ai s sample_bars
            | Raise _ => ""
            end)]) /\
    PyStr.contains "+15.00%" text = true /\
    length table = 7.
Proof.
  destruct (weekly_report_survives_model_failure
              (sample_world (Return sample_week) llm_down) sample_bars)
    as (s & Es & H).
  - vm_compute. reflexivity.
  - destruct (H "503 Service Unavailable" eq_refl)
      as (text & table & Er & Et & _ & _ & Etab & _).
    exists text, table. rewrite Er, Es. split; [reflexivity|].
    rewrite Et, Etab. vm_compute in Es. injection Es as <-.
    split; vm_compute; reflexivity.
Defined.

(** ** The context window of the educational mode *)

Lemma slice_to_len (n : nat) (s : string) :
  n <= PyStr.len s -> PyStr.len (PyStr.slice_to n s) = n.
Proof.
  revert n. induction s as [|c s IH]; intros n H; cbn in *.
  - lia.
  - destruct (PyStr.is_continuation c) eqn:E; cbn; rewrite ?E.
    + now apply IH.
    + destruct n as [|n]; [reflexivity|]. cbn. rewrite E, IH; lia.
Qed.

Lemma slice_to_prefix (n : nat) (s : string) :
  exists rest, s = PyStr.slice_to n s ++ rest.
Proof.
  revert n. induction s as [|c s IH]; intros n; cbn.
  - now exists "".
  - destruct (PyStr.is_continuation c).
    + destruct (IH n) as [rest E]. exists rest. cbn. now rewrite <- E.
    + destruct n as [|n]; [now exists (String c s)|].
      destruct (IH n) as [rest E]. exists rest. cbn. now rewrite <- E.
Qed.

Lemma append_turn_replay (messages : list BaseMessage) (msg : ChatMessage) :
  user_or_assistant msg ->
  append_turn messages msg = (messages ++ [replay msg])%list.
Proof.
  unfold append_turn, replay, replayed_content. intros [E | E]; rewrite E.
  - reflexivity.
  - cbn [String.eqb Ascii.eqb Bool.eqb].
    now destruct (500 <? PyStr.len (content msg))%nat.
Qed.

Lemma fold_append_turn (window : list ChatMessage) (messages : list BaseMessage) :
  Forall user_or_assistant window ->
  fold_left append_turn window messages = (messages ++ map replay window)%list.
Proof.
  revert messages. induction window as [|msg window IH]; intros messages H.
  - now rewrite app_nil_r.
  - inversion H as [|? ? Hm Hw]; subst. cbn [fold_left map].
    rewrite (append_turn_replay _ _ Hm), (IH _ Hw). now rewrite <- app_assoc.
Qed.

Lemma replay_cases (msg : ChatMessage) :
  (role msg = "user" -> replay msg = HumanMessage (content msg)) /\
  (role msg = "assistant" -> 500 < PyStr.len (content msg) ->
     replay msg = AIMessage (PyStr.slice_to 500 (content msg) ++ "...") /\
     PyStr.len (PyStr.slice_to 500 (content msg)) = 500 /\
     exists rest, content msg = PyStr.slice_to 500 (content msg) ++ rest) /\
  (role msg = "assistant" -> PyStr.len (content msg) <= 500 ->
     replay msg = AIMessage (content msg)).
Proof.
  unfold replay. split; [|split].
  - now intros ->.
  - intros -> H. cbn [String.eqb Ascii.eqb Bool.eqb]. split.
    + apply Nat.ltb_lt in H. now rewrite H.
    + split; [apply slice_to_len; lia | apply slice_to_prefix].
  - intros -> H. cbn [String.eqb Ascii.eqb Bool.eqb].
    apply Nat.ltb_ge in H. now rewrite H.
Qed.

(** C7: for a history of more than 8 turns, the messages sent to the model in
    the educational mode are the system instruction, then the last 8 turns of
    the history in their order, then the new utterance; a user turn is
    replayed unchanged, an assistant turn longer than 500 characters as its
    first 500 characters followed by an ellipsis, a shorter one unchanged; and
    the model is called once, with these messages.  The lengths are counted in
    characters, as [len] counts them. *)
Theorem context_window (prompt : string) (chat_history : list ChatMessage) :
  8 < length chat_history ->
  Forall user_or_assistant chat_history ->
  exists older window,
    chat_history = (older ++ window)%list /\
    length window = 8 /\
    llm_messages prompt chat_history
      = (SystemMessage SYSTEM_INSTRUCTION :: map replay window
         ++ [HumanMessage (full_prompt prompt)])%list /\
    (forall w, snd (Eff.run (get_llm_response w prompt chat_history))
               = [llm_messages prompt chat_history]) /\
    (forall msg, In msg window ->
       (role msg = "user" -> replay msg = HumanMessage (content msg)) /\
       (role msg = "assistant" -> 500 < PyStr.len (content msg) ->
          replay msg = AIMessage (PyStr.slice_to 500 (content msg) ++ "...") /\
          PyStr.len (PyStr.slice_to 500 (content msg)) = 500 /\
          exists rest, content msg = PyStr.slice_to 500 (content msg) ++ rest) /\
       (role msg = "assistant" -> PyStr.len (content msg) <= 500 ->
          replay msg = AIMessage (content msg))).
Proof.
  intros Hlen Hroles.
  exists (firstn (length chat_history - 8) chat_history),
         (skipn (length chat_history - 8) chat_history).
  assert (Hsplit : chat_history
                   = (firstn (length chat_history - 8) chat_history
                      ++ skipn (length chat_history - 8) chat_history)%list)
    by (now rewrite firstn_skipn).
  split; [exact Hsplit|]. split; [rewrite length_skipn; lia|].
  split; [|split].
  - unfold llm_messages, recent_history.
    replace (8 <? length chat_history)%nat with true
      by (symmetry; apply Nat.ltb_lt; lia).
    rewrite fold_append_turn; [reflexivity|].
    rewrite Hsplit in Hroles. now apply Forall_app in Hroles.
  - intros w. unfold Eff.run, get_llm_response, Eff.try_except, Eff.invoke.
    now destruct (llm_invoke w (llm_messages prompt chat_history)).
  - intros msg _. apply replay_cases.
Qed.

Lemma context_window_witness :
  llm_messages "Apa itu IHSG?" sample_history
    = (SystemMessage SYSTEM_INSTRUCTION
       :: map replay (skipn 2 sample_history)
       ++ [HumanMessage (full_prompt "Apa itu IHSG?")])%list /\
  nth_error (llm_messages "Apa itu IHSG?" sample_history) 3
    = Some (AIMessage (PyStr.slice_to 500 greeting ++ "...")) /\
  PyStr.len (PyStr.slice_to 500 greeting ++ "...") = 503 /\
  String.length (PyStr.slice_to 500 greeting ++ "...") = 515 /\
  nth_error (llm_messages "Apa itu IHSG?" sample_history) 5
    = Some (AIMessage accents) /\
  PyStr.len accents = 300 /\ String.length accents = 600.
Proof.
  destruct (context_window "Apa itu IHSG?" sample_history)
    as (older & window & Es & El & Em & _).
  - cbn. lia.
  - repeat (apply Forall_cons;
            [unfold user_or_assistant; cbn; first [now left | now right]|]).
    apply Forall_nil.
  - split; [|repeat split; vm_compute; reflexivity].
    rewrite Em. f_equal. f_equal.
    assert (Eo : length older = 2).
    { apply (f_equal (@length _)) in Es. rewrite length_app, El in Es.
      cbn in Es. lia. }
    destruct older as [|a [|b [|c older]]]; try discriminate Eo.
    cbn in Es. injection Es as _ _ <-. reflexivity.
Defined.

(** The handler appends the prompt to the session's messages before it calls
    [get_llm_response]: the history that is windowed already ends with the
    new utterance. *)
Lemma chat_turn_educational (w later : World) (prompt : string)
    (messages : list ChatMessage) :
  classify prompt = Educational ->
  snd (chat_turn w later prompt messages [])
    = [llm_messages prompt
         (messages ++ [{| role := "user"; content := prompt |}])%list].
Proof.
  unfold classify, chat_turn. intros H.
  destruct (is_ihsg_weekly_request prompt); [discriminate H|].
  destruct (is_ihsg_data_request prompt); [discriminate H|].
  unfold get_llm_response, Eff.try_except, Eff.invoke, Eff.ret.
  now destruct (llm_invoke w _).
Qed.

(** * Further properties of the response modes *)

(** ** Latest mode *)

Lemma get_ihsg_data_and_format_data (w : World) (data : Quote.t) :
  fetch_ihsg_data w = Data data ->
  Eff.run (get_ihsg_data_and_format w)
  = (Return match llm_invoke w (hybrid_prompt (data_text data)) with
            | Return response => response ++ data_detail data
            | Raise _ => hybrid_fallback data
            end,
     [hybrid_prompt (data_text data)]).
Proof.
  intros E. unfold Eff.run, get_ihsg_data_and_format. rewrite E.
  unfold Eff.try_except, Eff.bind, Eff.invoke, Eff.ret.
  now destruct (llm_invoke w (hybrid_prompt (data_text data))).
Qed.

Lemma get_ihsg_data_and_format_run (w : World) :
  exists text messages,
    Eff.run (get_ihsg_data_and_format w) = (Return text, [messages]).
Proof.
  destruct (fetch_ihsg_data w) as [|e|data] eqn:E.
  - destruct (error_response_run w "Data tidak tersedia") as (text & Er & _).
    exists text, (error_prompt "Data tidak tersedia").
    unfold get_ihsg_data_and_format. now rewrite E.
  - destruct (error_response_run w e) as (text & Er & _).
    exists text, (error_prompt e).
    unfold get_ihsg_data_and_format. now rewrite E.
  - rewrite (get_ihsg_data_and_format_data w data E). eexists. eexists.
    reflexivity.
Qed.

(** X1: The latest mode never raises and calls the model exactly once, whatever
    the provider and the model do. *)
Theorem latest_mode_one_call (w : World) :
  exists text messages,
    Eff.run (get_ihsg_data_and_format w) = (Return text, [messages]).
Proof. exact (get_ihsg_data_and_format_run w). Qed.

(** X2: When a quote was fetched, the answer of the latest mode holds the close
    and the change percent as formatted by the program, whether the model
    answered or failed; when the model answered, the answer is the model's
    text followed by the raw-data footer. *)
Theorem latest_answer_keeps_numbers (w : World) (data : Quote.t) :
  fetch_ihsg_data w = Data data ->
  exists text,
    Eff.run (get_ihsg_data_and_format w)
      = (Return text, [hybrid_prompt (data_text data)]) /\
    PyStr.contains (Py.format_f false false 2 (Quote.close data)) text = true /\
    PyStr.contains (Py.format_f true false 2 (Quote.change_percent data)) text = true /\
    (forall response,
       llm_invoke w (hybrid_prompt (data_text data)) = Return response ->
       text = response ++ data_detail data) /\
    (forall e,
       llm_invoke w (hybrid_prompt (data_text data)) = Raise e ->
       text = hybrid_fallback data).
Proof.
  intros E. rewrite (get_ihsg_data_and_format_data w data E).
  eexists. split; [reflexivity|].
  destruct (llm_invoke w (hybrid_prompt (data_text data))) as [c|e].
  - repeat split; try congruence; apply contains_app_r; unfold data_detail; find_part.
  - repeat split; try congruence; unfold hybrid_fallback; find_part.
Qed.

Lemma latest_answer_keeps_numbers_witness :
  exists text,
    fst (Eff.run (get_ihsg_data_and_format
                    (sample_world (Return sample_week) llm_up))) = Return text /\
    PyStr.contains "115.00" text = true /\
    PyStr.contains "+2.68" text = true.
Proof.
  destruct (latest_answer_keeps_numbers
              (sample_world (Return sample_week) llm_up)
              {| Quote.close := 115; Quote.prev_close := 112;
                 Quote.change_points := 3;
                 Quote.change_percent := (3 / 112 * 100)%float;
                 Quote.date := "7 %d %B %Y"; Quote.day_name := "7 %A";
                 Quote.status := "naik"; Quote.is_today := false;
                 Quote.days_ago := 3; Quote.market_status := "3 hari lalu";
                 Quote.timestamp := {| to_ordinal := 7 |} |})
    as (text & Er & Hc & Hp & _).
  - vm_compute. reflexivity.
  - exists text. rewrite Er. split; [reflexivity|].
    split; [exact Hc | exact Hp].
Defined.

(** ** Educational mode *)

Lemma get_llm_response_run (w : World) (prompt : string)
    (chat_history : list ChatMessage) :
  exists text,
    Eff.run (get_llm_response w prompt chat_history)
      = (Return text, [llm_messages prompt chat_history]) /\
    (forall c, llm_invoke w (llm_messages prompt chat_history) = Return c ->
               text = c) /\
    (forall e, llm_invoke w (llm_messages prompt chat_history) = Raise e ->
               text = llm_fallback).
Proof.
  unfold Eff.run, get_llm_response, Eff.try_except, Eff.invoke, Eff.ret.
  destruct (llm_invoke w (llm_messages prompt chat_history)) as [c|e].
  - exists c. repeat split; congruence.
  - exists llm_fallback. repeat split; congruence.
Qed.

(** X3: The educational mode never raises and calls the model exactly once, with
    the windowed messages; its answer is the model's text, or the fixed
    apology when the call fails. *)
Theorem educational_mode_one_call (w : World) (prompt : string)
    (chat_history : list ChatMessage) :
  exists text,
    Eff.run (get_llm_response w prompt chat_history)
      = (Return text, [llm_messages prompt chat_history]) /\
    (forall c, llm_invoke w (llm_messages prompt chat_history) = Return c ->
               text = c) /\
    (forall e, llm_invoke w (llm_messages prompt chat_history) = Raise e ->
               text = llm_fallback).
Proof. exact (get_llm_response_run w prompt chat_history). Qed.

(** ** Weekly mode *)

Lemma get_ihsg_weekly_data_and_format_data (w : World) (bars : list Bar.t) :
  fetch_ihsg_weekly_data w = Data bars ->
  exists s,
    weekly_statistics bars = Return s /\
    Eff.run (get_ihsg_weekly_data_and_format w)
    = (Return (WeeklyReport
                 (weekly_result_text
                    match llm_invoke w (weekly_prompt (summary_for_ai s bars)) with
                    | Return ai_analysis => ai_analysis
                    | Raise _ => "Analisis AI tidak tersedia saat ini."
                    end
                    (stats_text s))
                 (map display_row bars)),
       [weekly_prompt (summary_for_ai s bars)]).
Proof.
  intros Ef. pose proof (fetch_weekly_nonempty w bars Ef) as Hne.
  destruct bars as [|first rest]; [congruence|].
  destruct (weekly_statistics_nonempty first rest) as (s & Es & _).
  exists s. split; [assumption|].
  unfold Eff.run, get_ihsg_weekly_data_and_format. rewrite Ef.
  unfold Eff.bind, Eff.lift, display_df. rewrite Es.
  unfold Eff.try_except, Eff.invoke, Eff.ret.
  now destruct (llm_invoke w (weekly_prompt (summary_for_ai s (first :: rest)))).
Qed.

(** X4: When the weekly fetch succeeds and the model answers, the report is the
    model's analysis followed by the statistics block, and the table has one
    row for each bar, in order: the same block and table as when the model
    fails. *)
Theorem weekly_report_with_analysis (w : World) (bars : list Bar.t) :
  fetch_ihsg_weekly_data w = Data bars ->
  exists s,
    weekly_statistics bars = Return s /\
    forall ai_analysis,
      llm_invoke w (weekly_prompt (summary_for_ai s bars)) = Return ai_analysis ->
      exists rest,
        Eff.run (get_ihsg_weekly_data_and_format w)
          = (Return (WeeklyReport (ai_analysis ++ rest) (map display_row bars)),
             [weekly_prompt (summary_for_ai s bars)]) /\
        PyStr.contains (stats_text s) rest = true.
Proof.
  intros Ef. destruct (get_ihsg_weekly_data_and_format_data w bars Ef)
    as (s & Es & Er).
  exists s. split; [assumption|]. intros ai El. rewrite El in Er.
  eexists. split; [exact Er|]. find_part.
Qed.

Lemma weekly_report_with_analysis_witness :
  exists rest,
    fst (Eff.run (get_ihsg_weekly_data_and_format
                    (sample_world (Return sample_week) llm_up)))
      = Return (WeeklyReport ("Baik." ++ rest) (map display_row sample_bars)) /\
    PyStr.contains "+15.00%" rest = true.
Proof.
  destruct (weekly_report_with_analysis
              (sample_world (Return sample_week) llm_up) sample_bars)
    as (s & Es & H).
  - vm_compute. reflexivity.
  - destruct (H "Baik." eq_refl) as (rest & Er & Hc).
    exists rest. rewrite Er. split; [reflexivity|].
    apply (contains_trans _ (stats_text s)); [|exact Hc].
    vm_compute in Es. injection Es as <-. vm_compute. reflexivity.
Defined.

Lemma get_ihsg_weekly_data_and_format_run (w : World) :
  exists result log,
    Eff.run (get_ihsg_weekly_data_and_format w) = (Return result, log) /\
    match fetch_ihsg_weekly_data w, result with
    | Data bars, WeeklyReport _ table =>
        length log = 1 /\ length table = length bars /\ 1 <= length bars
    | NoData, WeeklyMessage _ => log = []
    | Failed _, WeeklyMessage _ => log = []
    | _, _ => False
    end.
Proof.
  destruct (fetch_ihsg_weekly_data w) as [|e|bars] eqn:Ef.
  - eexists. eexists. unfold get_ihsg_weekly_data_and_format. rewrite Ef.
    split; reflexivity.
  - eexists. eexists. unfold get_ihsg_weekly_data_and_format. rewrite Ef.
    split; reflexivity.
  - destruct (get_ihsg_weekly_data_and_format_data w bars Ef) as (s & _ & Er).
    eexists. eexists. split; [exact Er|]. cbn.
    pose proof (fetch_weekly_nonempty w bars Ef) as Hne.
    rewrite length_map. destruct bars; [congruence|]. cbn. repeat split; lia.
Qed.

(** X5: The weekly mode never raises; it calls the model once when the fetch gave
    a series and not at all otherwise, and it returns a table exactly when the
    fetch gave a series. *)
Theorem weekly_mode_never_raises (w : World) :
  exists result log,
    Eff.run (get_ihsg_weekly_data_and_format w) = (Return result, log) /\
    match fetch_ihsg_weekly_data w, result with
    | Data bars, WeeklyReport _ table =>
        length log = 1 /\ length table = length bars /\ 1 <= length bars
    | NoData, WeeklyMessage _ => log = []
    | Failed _, WeeklyMessage _ => log = []
    | _, _ => False
    end.
Proof. exact (get_ihsg_weekly_data_and_format_run w). Qed.

(** ** The chat handler *)

Lemma chat_turn_run (w later : World) (prompt : string)
    (messages : list ChatMessage) :
  exists turn log,
    chat_turn w later prompt messages [] = (turn, log) /\
    length log <= 1 /\
    (table turn <> None <->
     is_ihsg_weekly_request prompt = true /\
     failure_reason (fetch_ihsg_weekly_data w) = None) /\
    (raised turn <> None <->
     is_ihsg_weekly_request prompt = true /\
     failure_reason (fetch_ihsg_weekly_data w) = None /\
     exists e, fetch_ihsg_weekly_data later = Failed e) /\
    match raised turn with
    | None =>
        exists response,
          session turn
          = ((messages ++ [{| role := "user"; content := prompt |}])
             ++ [{| role := "assistant"; content := response |}])%list
    | Some _ =>
        session turn = (messages ++ [{| role := "user"; content := prompt |}])%list
    end.
Proof.
  unfold chat_turn. destruct (is_ihsg_weekly_request prompt) eqn:Ew.
  - destruct (get_ihsg_weekly_data_and_format_run w) as (result & log & Er & H).
    unfold Eff.run in Er. rewrite Er.
    destruct (fetch_ihsg_weekly_data w) as [|e|bars], result as [text|text df];
      try contradiction; cbn [failure_reason].
    + subst log. eexists. eexists. split; [reflexivity|]. cbn.
      split; [lia|]. split; [split; [congruence | intros [_ H']; discriminate H']|].
      split; [split; [congruence | intros (_ & H' & _); discriminate H']|].
      now exists text.
    + subst log. eexists. eexists. split; [reflexivity|]. cbn.
      split; [lia|]. split; [split; [congruence | intros [_ H']; discriminate H']|].
      split; [split; [congruence | intros (_ & H' & _); discriminate H']|].
      now exists text.
    + destruct H as (Hl & _).
      destruct (fetch_ihsg_weekly_data later) as [|e|[|b later_bars]];
        cbn [line_chart]; eexists; eexists; (split; [reflexivity|]); cbn;
        (split; [lia|]); (split; [split; [now split | discriminate]|]).
      * split; [split; [congruence | intros (_ & _ & e & H'); discriminate H']|].
        now exists text.
      * split; [split; [intros _; repeat split; now exists e | discriminate]|].
        reflexivity.
      * split; [split; [congruence | intros (_ & _ & e & H'); discriminate H']|].
        now exists text.
      * split; [split; [congruence | intros (_ & _ & e & H'); discriminate H']|].
        now exists text.
  - destruct (is_ihsg_data_request prompt).
    + destruct (get_ihsg_data_and_format_run w) as (text & m & Er).
      unfold Eff.run in Er. rewrite Er.
      eexists. eexists. split; [reflexivity|]. cbn.
      split; [lia|]. split; [split; [congruence | intros [H' _]; discriminate H']|].
      split; [split; [congruence | intros (H' & _); discriminate H']|].
      now exists text.
    + destruct (get_llm_response_run w prompt
                  (messages ++ [{| role := "user"; content := prompt |}])%list)
        as (text & Er & _).
      unfold Eff.run in Er. rewrite Er.
      eexists. eexists. split; [reflexivity|]. cbn.
      split; [lia|]. split; [split; [congruence | intros [H' _]; discriminate H']|].
      split; [split; [congruence | intros (H' & _); discriminate H']|].
      now exists text.
Qed.

(** X6: One submission calls the model at most once and appends to the
    session's messages the prompt as a user turn and then one assistant turn,
    leaving the earlier messages as they were, unless the run is ended by an
    exception.  That happens exactly when the prompt holds a weekly keyword,
    the weekly fetch gave a series and the second call of the fetcher, made
    for the chart, returns the dictionary of an error: the session then ends
    with the user turn.  When the second call returns what the first call
    returned, no exception is raised. *)
Theorem chat_turn_appends_or_ends (w later : World) (prompt : string)
    (messages : list ChatMessage) :
  exists turn log,
    chat_turn w later prompt messages [] = (turn, log) /\
    length log <= 1 /\
    (raised turn = None ->
     exists response,
       session turn
       = (messages ++ [{| role := "user"; content := prompt |};
                       {| role := "assistant"; content := response |}])%list) /\
    (raised turn <> None ->
     session turn = (messages ++ [{| role := "user"; content := prompt |}])%list) /\
    (raised turn <> None <->
     is_ihsg_weekly_request prompt = true /\
     failure_reason (fetch_ihsg_weekly_data w) = None /\
     exists e, fetch_ihsg_weekly_data later = Failed e) /\
    (fetch_ihsg_weekly_data later = fetch_ihsg_weekly_data w ->
     raised turn = None).
Proof.
  destruct (chat_turn_run w later prompt messages)
    as (turn & log & E & Hl & _ & Hr & Hs).
  exists turn, log. split; [exact E|]. split; [exact Hl|].
  destruct (raised turn) as [e|].
  - split; [discriminate|]. split; [intros _; exact Hs|]. split; [exact Hr|].
    intros Heq. destruct Hr as [Hr _].
    destruct Hr as (_ & Hw & e' & He'); [discriminate|].
    rewrite Heq in He'. rewrite He' in Hw. discriminate Hw.
  - split.
    + intros _. destruct Hs as [response Hs]. exists response.
      now rewrite <- app_assoc in Hs.
    + split; [congruence|]. split; [exact Hr | reflexivity].
Qed.

Lemma chat_turn_appends_or_ends_witness :
  exists turn log,
    chat_turn (sample_world (Return sample_week) llm_up)
              (sample_world (Raise "No data found") llm_up)
              "Data IHSG seminggu terakhir?" (init_session None) []
      = (turn, log) /\
    raised turn <> None /\
    session turn
      = (init_session None
         ++ [{| role := "user"; content := "Data IHSG seminggu terakhir?" |}])%list.
Proof.
  destruct (chat_turn_appends_or_ends
              (sample_world (Return sample_week) llm_up)
              (sample_world (Raise "No data found") llm_up)
              "Data IHSG seminggu terakhir?" (init_session None))
    as (turn & log & E & _ & _ & Hs & Hr & _).
  exists turn, log. split; [exact E|].
  assert (H : raised turn <> None).
  { apply Hr. split; [vm_compute; reflexivity|].
    split; [vm_compute; reflexivity|].
    exists "No data found". vm_compute. reflexivity. }
  split; [exact H | exact (Hs H)].
Defined.

(** X7: A submission shows a table exactly when the prompt holds a weekly keyword
    and the weekly fetch gave a series, whatever happens after the table is
    shown. *)
Theorem chat_turn_table (w later : World) (prompt : string)
    (messages : list ChatMessage) :
  exists turn log,
    chat_turn w later prompt messages [] = (turn, log) /\
    (table turn <> None <->
     is_ihsg_weekly_request prompt = true /\
     failure_reason (fetch_ihsg_weekly_data w) = None).
Proof.
  destruct (chat_turn_run w later prompt messages)
    as (turn & log & E & _ & H & _).
  exists turn, log. split; [exact E | exact H].
Qed.

Lemma user_msgs_app (xs ys : list ChatMessage) :
  user_msgs (xs ++ ys)%list = user_msgs xs + user_msgs ys.
Proof. unfold user_msgs. now rewrite filter_app, length_app. Qed.

(** X8: One submission raises the sidebar's count of questions by exactly one,
    whether the run ends with the answer or with an exception. *)
Theorem chat_turn_counts_one_question (w later : World) (prompt : string)
    (messages : list ChatMessage) :
  exists turn log,
    chat_turn w later prompt messages [] = (turn, log) /\
    user_msgs (session turn) = S (user_msgs messages).
Proof.
  destruct (chat_turn_run w later prompt messages)
    as (turn & log & E & _ & _ & _ & Hs).
  exists turn, log. split; [exact E|].
  destruct (raised turn).
  - rewrite Hs, user_msgs_app. cbn. lia.
  - destruct Hs as [response ->]. rewrite !user_msgs_app. cbn. lia.
Qed.

Lemma recent_history_snoc (messages : list ChatMessage) (u : ChatMessage) :
  exists older window,
    messages = (older ++ window)%list /\
    length window = Nat.min 7 (length messages) /\
    recent_history (messages ++ [u]) = (window ++ [u])%list.
Proof.
  unfold recent_history. rewrite length_app. cbn [length].
  destruct (8 <? length messages + 1)%nat eqn:E.
  - apply Nat.ltb_lt in E.
    exists (firstn (length messages - 7) messages),
           (skipn (length messages - 7) messages).
    split; [now rewrite firstn_skipn|]. split; [rewrite length_skipn; lia|].
    replace (length messages + 1 - 8) with (length messages - 7) by lia.
    rewrite skipn_app.
    replace (length messages - 7 - length messages) with 0 by lia.
    reflexivity.
  - apply Nat.ltb_ge in E. exists [], messages.
    split; [reflexivity|]. split; [lia | reflexivity].
Qed.

(** X9: In the educational mode the handler windows the session after it has
    appended the prompt: the model receives the system instruction, at most the
    7 turns that came before the prompt, the prompt as a user turn, and then
    the prompt again with the closing instruction. *)
Theorem handler_sends_prompt_twice (w later : World) (prompt : string)
    (messages : list ChatMessage) :
  classify prompt = Educational ->
  Forall user_or_assistant messages ->
  exists older window,
    messages = (older ++ window)%list /\
    length window = Nat.min 7 (length messages) /\
    snd (chat_turn w later prompt messages [])
      = [SystemMessage SYSTEM_INSTRUCTION
         :: map replay window
         ++ [HumanMessage prompt; HumanMessage (full_prompt prompt)]]%list.
Proof.
  intros Hc Hroles. rewrite (chat_turn_educational w later prompt messages Hc).
  destruct (recent_history_snoc messages {| role := "user"; content := prompt |})
    as (older & window & Em & El & Er).
  exists older, window. split; [exact Em|]. split; [exact El|].
  unfold llm_messages. rewrite Er, fold_append_turn.
  - rewrite map_app. cbn. now rewrite <- app_assoc.
  - apply Forall_app. split.
    + rewrite Em in Hroles. now apply Forall_app in Hroles.
    + constructor; [now left | constructor].
Qed.

Lemma handler_sends_prompt_twice_witness :
  snd (chat_turn (sample_world (Return sample_week) llm_up)
                 (sample_world (Return sample_week) llm_up)
                 "Apa itu saham?" (init_session None) [])
    = [[SystemMessage SYSTEM_INSTRUCTION;
        AIMessage (PyStr.slice_to 500 greeting ++ "...");
        HumanMessage "Apa itu saham?";
        HumanMessage (full_prompt "Apa itu saham?")]] /\
  PyStr.len greeting = 651 /\ String.length greeting = 666.
Proof.
  destruct (handler_sends_prompt_twice (sample_world (Return sample_week) llm_up)
              (sample_world (Return sample_week) llm_up)
              "Apa itu saham?" (init_session None))
    as (older & window & Es & El & Em).
  - vm_compute. reflexivity.
  - constructor; [now right | constructor].
  - split; [|split; vm_compute; reflexivity].
    rewrite Em. f_equal.
    destruct older as [|a older].
    + cbn in Es. rewrite <- Es. vm_compute. reflexivity.
    + apply (f_equal (@length _)) in Es. rewrite length_app, El in Es.
      cbn in Es. lia.
Defined.

(** ** The replayed window *)

Lemma string_length_app (a b : string) :
  String.length (a ++ b) = String.length a + String.length b.
Proof. induction a as [|c a IH]; cbn; [reflexivity | now rewrite IH]. Qed.

Lemma len_app (a b : string) : PyStr.len (a ++ b) = PyStr.len a + PyStr.len b.
Proof.
  induction a as [|c a IH]; cbn; [reflexivity|].
  destruct (PyStr.is_continuation c); now rewrite IH.
Qed.

Lemma slice_to_len_le (n : nat) (s : string) : PyStr.len (PyStr.slice_to n s) <= n.
Proof.
  revert n. induction s as [|c s IH]; intros n; cbn; [lia|].
  destruct (PyStr.is_continuation c) eqn:E; cbn; rewrite ?E; [apply IH|].
  destruct n as [|n]; cbn; [lia|]. rewrite E. specialize (IH n). lia.
Qed.

Lemma replayed_content_bound (c : string) :
  PyStr.len (replayed_content c) <= 503.
Proof.
  unfold replayed_content. destruct (500 <? PyStr.len c)%nat eqn:E.
  - rewrite len_app. pose proof (slice_to_len_le 500 c) as H.
    change (PyStr.len "...") with 3. lia.
  - apply Nat.ltb_ge in E. lia.
Qed.

Lemma fold_append_turn_any (window : list ChatMessage) (messages : list BaseMessage) :
  fold_left append_turn window messages
  = (messages ++ flat_map replay_turn window)%list.
Proof.
  revert messages. induction window as [|msg window IH]; intros messages.
  - now rewrite app_nil_r.
  - cbn [fold_left flat_map]. rewrite IH.
    set (rest := flat_map replay_turn window). unfold append_turn, replay_turn.
    destruct (role msg =? "user")%string;
      [|destruct (role msg =? "assistant")%string];
      now rewrite <- ?app_assoc.
Qed.

Lemma recent_history_length (chat_history : list ChatMessage) :
  length (recent_history chat_history) <= 8.
Proof.
  unfold recent_history. destruct (8 <? length chat_history)%nat eqn:E.
  - rewrite length_skipn. lia.
  - apply Nat.ltb_ge in E. lia.
Qed.

Lemma flat_map_replay_length (window : list ChatMessage) :
  length (flat_map replay_turn window) <= length window.
Proof.
  induction window as [|msg window IH]; [cbn; lia|].
  cbn [flat_map length]. rewrite length_app.
  set (rest := flat_map replay_turn window) in *. unfold replay_turn.
  destruct (role msg =? "user")%string;
    [|destruct (role msg =? "assistant")%string]; cbn [length]; lia.
Qed.

Lemma flat_map_replay_ai (window : list ChatMessage) (c : string) :
  In (AIMessage c) (flat_map replay_turn window) -> PyStr.len c <= 503.
Proof.
  intros H. apply in_flat_map in H as [msg [_ H]]. unfold replay_turn in H.
  destruct (role msg =? "user")%string.
  - destruct H as [H | []]. discriminate H.
  - destruct (role msg =? "assistant")%string; [|destruct H].
    destruct H as [H | []]. injection H as <-. apply replayed_content_bound.
Qed.

(** X10: Whatever the history, the educational mode sends at most 10 messages: the
    system instruction, at most 8 replayed turns and the new prompt; a turn
    whose role is neither user nor assistant is not replayed, and no replayed
    assistant message is longer than 503 characters, as [len] counts them. *)
Theorem replay_is_bounded (prompt : string) (chat_history : list ChatMessage) :
  llm_messages prompt chat_history
    = (SystemMessage SYSTEM_INSTRUCTION
       :: flat_map replay_turn (recent_history chat_history)
       ++ [HumanMessage (full_prompt prompt)])%list /\
  length (llm_messages prompt chat_history) <= 10 /\
  (forall c, In (AIMessage c) (llm_messages prompt chat_history) ->
             PyStr.len c <= 503).
Proof.
  assert (E : llm_messages prompt chat_history
              = (SystemMessage SYSTEM_INSTRUCTION
                 :: flat_map replay_turn (recent_history chat_history)
                 ++ [HumanMessage (full_prompt prompt)])%list).
  { unfold llm_messages. now rewrite fold_append_turn_any. }
  split; [exact E|]. rewrite E. split.
  - cbn [length]. rewrite length_app. cbn [length].
    pose proof (flat_map_replay_length (recent_history chat_history)).
    pose proof (recent_history_length chat_history). lia.
  - intros c [H | H]; [discriminate H|].
    apply in_app_or in H as [H | [H | []]]; [|discriminate H].
    now apply flat_map_replay_ai in H.
Qed.

(** X11: A history of at most 8 turns is replayed whole, in its order, between the
    system instruction and the new prompt. *)
Theorem short_history_replayed_whole (prompt : string)
    (chat_history : list ChatMessage) :
  length chat_history <= 8 ->
  Forall user_or_assistant chat_history ->
  llm_messages prompt chat_history
    = (SystemMessage SYSTEM_INSTRUCTION :: map replay chat_history
       ++ [HumanMessage (full_prompt prompt)])%list.
Proof.
  intros Hlen Hroles. unfold llm_messages, recent_history.
  replace (8 <? length chat_history)%nat with false
    by (symmetry; apply Nat.ltb_ge; lia).
  now rewrite fold_append_turn.
Qed.

Lemma short_history_replayed_whole_witness :
  llm_messages "Apa itu IHSG?" (init_session None)
    = [SystemMessage SYSTEM_INSTRUCTION;
       AIMessage (PyStr.slice_to 500 greeting ++ "...");
       HumanMessage (full_prompt "Apa itu IHSG?")] /\
  PyStr.len (PyStr.slice_to 500 greeting ++ "...") = 503.
Proof.
  split; [|vm_compute; reflexivity].
  rewrite (short_history_replayed_whole "Apa itu IHSG?" (init_session None)).
  - vm_compute. reflexivity.
  - cbn. lia.
  - constructor; [now right | constructor].
Defined.

(** ** Routing, continued *)

Lemma lower_upper_char (c : ascii) :
  PyStr.lower_char (PyStr.upper_char c) = PyStr.lower_char c.
Proof. destruct c as [[] [] [] [] [] [] [] []]; reflexivity. Qed.

Lemma lower_lower_char (c : ascii) :
  PyStr.lower_char (PyStr.lower_char c) = PyStr.lower_char c.
Proof. destruct c as [[] [] [] [] [] [] [] []]; reflexivity. Qed.

Lemma lower_upper (s : string) : PyStr.lower (PyStr.upper s) = PyStr.lower s.
Proof.
  unfold PyStr.lower, PyStr.upper. induction s as [|c s IH]; [reflexivity|].
  cbn [PyStr.map_chars]. now rewrite lower_upper_char, IH.
Qed.

Lemma lower_lower (s : string) : PyStr.lower (PyStr.lower s) = PyStr.lower s.
Proof.
  unfold PyStr.lower. induction s as [|c s IH]; [reflexivity|].
  cbn [PyStr.map_chars]. now rewrite lower_lower_char, IH.
Qed.

(** X12: The routing does not depend on the case of the ASCII letters of the
    prompt: a prompt, the prompt in capitals and the prompt in small letters
    take the same branch. *)
Theorem classify_ignores_case (u : string) :
  classify (PyStr.upper u) = classify u /\
  classify (PyStr.lower u) = classify u.
Proof.
  unfold classify, is_ihsg_weekly_request, is_ihsg_data_request.
  now rewrite lower_upper, lower_lower.
Qed.

(** X13: The three branches of the handler, by the markers of the prompt. *)
Theorem classify_characterised (u : string) :
  (classify u = WeeklySeriesRequest <-> has_marker weekly_keywords u) /\
  (classify u = LatestQuoteRequest <->
   ~ has_marker weekly_keywords u /\ ~ has_marker exclusion_words u /\
   has_marker data_keywords u) /\
  (classify u = Educational <->
   ~ has_marker weekly_keywords u /\
   (has_marker exclusion_words u \/ ~ has_marker data_keywords u)).
Proof.
  rewrite !has_marker_iff.
  unfold classify, is_ihsg_weekly_request, is_ihsg_data_request.
  destruct (any_in weekly_keywords (PyStr.lower u));
    destruct (any_in exclusion_words (PyStr.lower u));
    destruct (any_in data_keywords (PyStr.lower u));
    repeat split; try congruence; try tauto; intuition congruence.
Qed.

Lemma any_in_subsumed (core full : list string) (text : string) :
  subsumes core full = true -> any_in full text = any_in core text.
Proof.
  unfold subsumes. rewrite andb_true_iff, !forallb_forall. intros [Hf Hc].
  apply eq_true_iff_eq. rewrite !any_in_iff. split.
  - intros (k & pre & post & Hin & ->).
    specialize (Hf k Hin). apply existsb_exists in Hf as (k' & Hin' & Hk).
    assert (H : PyStr.contains k' (pre ++ k ++ post) = true).
    { apply contains_app_r. now apply contains_app_l. }
    apply contains_iff in H as (pre' & post' & H).
    now exists k', pre', post'.
  - intros (k' & pre & post & Hin & ->).
    specialize (Hc k' Hin). apply existsb_exists in Hc as (k & Hin' & Hk).
    apply String.eqb_eq in Hk as <-. now exists k', pre, post.
Qed.

(** X14: Eleven keywords never decide the routing: every prompt is routed as if
    the weekly keywords were the 8 of [weekly_core] and the data keywords the 9
    of [data_core], because each of the other keywords holds one of these. *)
Theorem long_keywords_are_redundant (u : string) :
  is_ihsg_weekly_request u = any_in weekly_core (PyStr.lower u) /\
  is_ihsg_data_request u
    = (if any_in exclusion_words (PyStr.lower u) then false
       else any_in data_core (PyStr.lower u)).
Proof.
  unfold is_ihsg_weekly_request, is_ihsg_data_request.
  rewrite (any_in_subsumed weekly_core weekly_keywords) by (vm_compute; reflexivity).
  rewrite (any_in_subsumed data_core data_keywords) by (vm_compute; reflexivity).
  split; reflexivity.
Qed.

(** ** The fetchers, continued *)

Lemma fetch_ihsg_data_fields (w : World) (older : list Hist.Row)
    (prev last : Hist.Row) :
  history w "5d" = Return (older ++ [prev; last])%list ->
  exists q,
    fetch_ihsg_data w = Data q /\
    Quote.change_points q = (Hist.Close last - Hist.Close prev)%float /\
    Quote.status q
      = (if (0 <? Quote.change_points q)%float then "naik"
         else if (Quote.change_points q <? 0)%float then "turun"
         else "stagnan") /\
    Quote.timestamp q = Hist.idx last /\
    Quote.is_today q = (to_ordinal (Hist.idx last) =? to_ordinal (now w))%Z /\
    Quote.days_ago q = (to_ordinal (now w) - to_ordinal (Hist.idx last))%Z /\
    Quote.market_status q
      = (if Quote.is_today q then "hari ini"
         else Py.str_of_int (Quote.days_ago q) ++ " hari lalu").
Proof.
  intros Eh. unfold fetch_ihsg_data. rewrite Eh. cbn [Py.bind].
  assert (Hlen : length (older ++ [prev; last])%list = length older + 2)
    by (rewrite length_app; reflexivity).
  replace (length (older ++ [prev; last])%list =? 0)%nat with false
    by (symmetry; apply Nat.eqb_neq; lia).
  replace (length (older ++ [prev; last])%list <? 2)%nat with false
    by (symmetry; apply Nat.ltb_ge; lia).
  cbn [orb]. rewrite iloc_last, iloc_before_last. cbn [Py.bind caught].
  eexists. split; [reflexivity|]. cbn. repeat split.
Qed.

Lemma fetch_ihsg_data_decomposed (w : World) (q : Quote.t) :
  fetch_ihsg_data w = Data q ->
  exists older prev last,
    history w "5d" = Return (older ++ [prev; last])%list.
Proof.
  intros Eq. destruct (history w "5d") as [hist|e] eqn:Eh.
  - destruct (Nat.lt_ge_cases (length hist) 2) as [Hlt | Hge].
    + rewrite (fetch_ihsg_data_short w hist Eh Hlt) in Eq. discriminate Eq.
    + destruct (split_last_two hist Hge) as (older & prev & last & ->).
      now exists older, prev, last.
  - rewrite (fetch_ihsg_data_raised w e Eh) in Eq. discriminate Eq.
Qed.

(** X15: The fields of a quote agree with one another: the status is "naik" exactly
    when the change is above zero and "turun" exactly when it is below; the
    quote is of today exactly when it is 0 days old, and exactly then its
    market status reads "hari ini". *)
Theorem quote_fields_agree (w : World) (q : Quote.t) :
  fetch_ihsg_data w = Data q ->
  (Quote.status q = "naik" <-> (0 <? Quote.change_points q)%float = true) /\
  (Quote.status q = "turun" <-> (Quote.change_points q <? 0)%float = true) /\
  (Quote.is_today q = true <-> Quote.days_ago q = 0%Z) /\
  (Quote.market_status q = "hari ini" <-> Quote.is_today q = true).
Proof.
  intros Eq. destruct (fetch_ihsg_data_decomposed w q Eq)
    as (older & prev & last & Eh).
  destruct (fetch_ihsg_data_fields w older prev last Eh)
    as (q' & Eq' & _ & Es & _ & Et & Ed & Em).
  rewrite Eq' in Eq. injection Eq as <-.
  rewrite Es, Em. clear Es Em. repeat split.
  - destruct (0 <? Quote.change_points q')%float; [reflexivity|].
    destruct (Quote.change_points q' <? 0)%float; discriminate.
  - now intros ->.
  - destruct (0 <? Quote.change_points q')%float; [discriminate|].
    destruct (Quote.change_points q' <? 0)%float; [reflexivity | discriminate].
  - intros H. now rewrite (ltb_asym _ _ H), H.
  - rewrite Et, Ed. intros H. apply Z.eqb_eq in H. lia.
  - rewrite Et, Ed. intros H. apply Z.eqb_eq. lia.
  - destruct (Quote.is_today q'); [reflexivity|]. intros H.
    apply (f_equal String.length) in H. rewrite string_length_app in H.
    cbn in H. lia.
  - now intros ->.
Qed.

Lemma quote_fields_agree_witness :
  exists q,
    fetch_ihsg_data (sample_world (Return sample_week) llm_down) = Data q /\
    Quote.status q = "naik" /\ Quote.is_today q = false /\
    Quote.days_ago q = 3%Z.
Proof.
  eexists. split; [vm_compute; reflexivity|].
  split; [|split; reflexivity].
  apply (quote_fields_agree (sample_world (Return sample_week) llm_down)).
  - vm_compute. reflexivity.
  - reflexivity.
Defined.

(** X16: The latest fetch reads the last two rows of the history and nothing
    before them: two histories that end with the same two rows give the same
    outcome. *)
Theorem quote_reads_last_two_rows (w1 w2 : World) (older1 older2 : list Hist.Row)
    (prev last : Hist.Row) :
  strftime w1 = strftime w2 -> now w1 = now w2 ->
  history w1 "5d" = Return (older1 ++ [prev; last])%list ->
  history w2 "5d" = Return (older2 ++ [prev; last])%list ->
  fetch_ihsg_data w1 = fetch_ihsg_data w2.
Proof.
  intros Hs Hn E1 E2. unfold fetch_ihsg_data. rewrite E1, E2, Hs, Hn.
  cbn [Py.bind].
  replace (length (older1 ++ [prev; last])%list =? 0)%nat with false
    by (symmetry; apply Nat.eqb_neq; rewrite length_app; cbn; lia).
  replace (length (older1 ++ [prev; last])%list <? 2)%nat with false
    by (symmetry; apply Nat.ltb_ge; rewrite length_app; cbn; lia).
  replace (length (older2 ++ [prev; last])%list =? 0)%nat with false
    by (symmetry; apply Nat.eqb_neq; rewrite length_app; cbn; lia).
  replace (length (older2 ++ [prev; last])%list <? 2)%nat with false
    by (symmetry; apply Nat.ltb_ge; rewrite length_app; cbn; lia).
  cbn [orb]. now rewrite !iloc_last, !iloc_before_last.
Qed.

Lemma quote_reads_last_two_rows_witness :
  fetch_ihsg_data (sample_world (Return sample_week) llm_down)
  = fetch_ihsg_data
      (sample_world (Return [sample_row 6 112; sample_row 7 115]) llm_up).
Proof.
  apply (quote_reads_last_two_rows _ _ (firstn 5 sample_week) []
           (sample_row 6 112) (sample_row 7 115)); reflexivity.
Defined.

Lemma tail_app_exact (n : nat) (older rows : list Hist.Row) :
  length rows = n -> tail n (older ++ rows) = rows.
Proof.
  intros H. unfold tail. rewrite length_app, H.
  replace (length older + n - n) with (length older) by lia.
  rewrite skipn_app, Nat.sub_diag, skipn_all. reflexivity.
Qed.

Lemma append_bar_strftime (w1 w2 : World) (acc : list Bar.t) (row : Hist.Row) :
  strftime w1 = strftime w2 -> append_bar w1 acc row = append_bar w2 acc row.
Proof. intros H. unfold append_bar. now rewrite H. Qed.

Lemma fold_append_bar_strftime (w1 w2 : World) (rows : list Hist.Row)
    (acc : list Bar.t) :
  strftime w1 = strftime w2 ->
  fold_left (append_bar w1) rows acc = fold_left (append_bar w2) rows acc.
Proof.
  intros H. revert acc. induction rows as [|row rows IH]; intros acc;
    [reflexivity|].
  cbn [fold_left]. now rewrite IH, (append_bar_strftime w1 w2 acc row H).
Qed.

(** X17: The weekly fetch reads the last seven rows of the history and nothing
    before them: two histories that end with the same seven rows give the same
    series, whose first bar records no change even when an earlier row was
    fetched. *)
Theorem weekly_reads_last_seven_rows (w1 w2 : World)
    (older1 older2 rows : list Hist.Row) :
  strftime w1 = strftime w2 ->
  length rows = 7 ->
  history w1 "1mo" = Return (older1 ++ rows)%list ->
  history w2 "1mo" = Return (older2 ++ rows)%list ->
  fetch_ihsg_weekly_data w1 = fetch_ihsg_weekly_data w2 /\
  fetch_ihsg_weekly_data w1 = Data (fold_left (append_bar w1) rows []).
Proof.
  intros Hs Hl E1 E2.
  pose proof (fetch_ihsg_weekly_data_cases w1) as C1.
  pose proof (fetch_ihsg_weekly_data_cases w2) as C2.
  rewrite E1 in C1. rewrite E2 in C2.
  destruct (older1 ++ rows)%list as [|r1 h1] eqn:A1.
  { apply (f_equal (@length _)) in A1. rewrite length_app, Hl in A1.
    cbn in A1. lia. }
  destruct (older2 ++ rows)%list as [|r2 h2] eqn:A2.
  { apply (f_equal (@length _)) in A2. rewrite length_app, Hl in A2.
    cbn in A2. lia. }
  rewrite <- A1 in C1. rewrite <- A2 in C2.
  rewrite (tail_app_exact 7 older1 rows Hl) in C1.
  rewrite (tail_app_exact 7 older2 rows Hl) in C2.
  rewrite C1, C2. split; [|reflexivity].
  now rewrite (fold_append_bar_strftime w1 w2 rows [] Hs).
Qed.

Lemma weekly_reads_last_seven_rows_witness :
  fetch_ihsg_weekly_data
    (sample_world (Return (sample_row 0 90 :: sample_week)) llm_up)
  = fetch_ihsg_weekly_data (sample_world (Return sample_week) llm_down).
Proof.
  apply (weekly_reads_last_seven_rows _ _ [sample_row 0 90] [] sample_week);
    reflexivity.
Defined.

Lemma fetch_weekly_changes (w : World) (bars : list Bar.t) :
  fetch_ihsg_weekly_data w = Data bars -> bar_changes bars.
Proof.
  intros E. pose proof (fetch_ihsg_weekly_data_cases w) as C.
  destruct (history w "1mo") as [[|r hist]|e]; rewrite C in E;
    try discriminate E.
  injection E as <-. apply fold_append_bar_changes, bar_changes_nil.
Qed.

(** X18: The weekly loop does not guard its division either: a bar that follows a
    bar closed at zero records a change percent that is an infinity or a
    NaN. *)
Theorem weekly_change_after_zero_close (w : World) (bars : list Bar.t)
    (i : nat) (p b : Bar.t) :
  fetch_ihsg_weekly_data w = Data bars ->
  nth_error bars i = Some p ->
  nth_error bars (S i) = Some b ->
  (Bar.close p =? 0)%float = true ->
  PrimFloat.is_finite (Bar.change_pct b) = false.
Proof.
  intros E Hp Hb Hz. destruct (fetch_weekly_changes w bars E) as [_ HS].
  destruct (HS i p b Hp Hb) as [_ ->]. now apply percent_of_zero_base.
Qed.

Lemma weekly_change_after_zero_close_witness :
  exists p b,
    nth_error zero_bars 0 = Some p /\ nth_error zero_bars 1 = Some b /\
    PrimFloat.is_finite (Bar.change_pct b) = false.
Proof.
  eexists. eexists. split; [vm_compute; reflexivity|].
  split; [vm_compute; reflexivity|].
  apply (weekly_change_after_zero_close
           (sample_world (Return zero_then_five) llm_down) zero_bars 0
           {| Bar.date := "1 %d %b %Y"; Bar.day := "1 %A"; Bar.close := 0;
              Bar.open := 0; Bar.high := 1; Bar.low := (-1); Bar.volume := 1000;
              Bar.change := 0; Bar.change_pct := 0 |});
    vm_compute; reflexivity.
Defined.

(** X19: The statistics do not guard their division either: when the first close
    of the series is zero the percentage of the period is an infinity or a
    NaN, and the statistics are still returned. *)
Theorem week_change_pct_of_zero_close (first : Bar.t) (rest : list Bar.t) :
  (Bar.close first =? 0)%float = true ->
  exists s,
    weekly_statistics (first :: rest) = Return s /\
    PrimFloat.is_finite (week_change_pct s) = false.
Proof.
  intros Hz. destruct (weekly_statistics_nonempty first rest)
    as (s & Es & _ & _ & _ & Hpct & _).
  exists s. split; [exact Es|]. rewrite Hpct. now apply percent_of_zero_base.
Qed.

Lemma week_change_pct_of_zero_close_witness :
  exists s,
    weekly_statistics zero_bars = Return s /\
    PrimFloat.is_finite (week_change_pct s) = false.
Proof.
  apply (week_change_pct_of_zero_close
           {| Bar.date := "1 %d %b %Y"; Bar.day := "1 %A"; Bar.close := 0;
              Bar.open := 0; Bar.high := 1; Bar.low := (-1); Bar.volume := 1000;
              Bar.change := 0; Bar.change_pct := 0 |}).
  reflexivity.
Defined.

(** X20: The first row of the table of a weekly report shows no change ("-"), and
    so does every row whose bar closed where the bar before it closed. *)
Theorem table_marks_unchanged_rows (w : World) (bars : list Bar.t) :
  fetch_ihsg_weekly_data w = Data bars ->
  (exists r, hd_error (map display_row bars) = Some r /\
             Display.Perubahan r = "-") /\
  (forall b, In b bars -> (Bar.change b =? 0)%float = true ->
             Display.Perubahan (display_row b) = "-").
Proof.
  intros E. split.
  - pose proof (fetch_weekly_nonempty w bars E) as Hne.
    destruct (fetch_weekly_changes w bars E) as [H0 _].
    destruct bars as [|b bars]; [congruence|].
    destruct (H0 b eq_refl) as [Hc _].
    exists (display_row b). split; [reflexivity|].
    unfold display_row. cbn [Display.Perubahan]. rewrite Hc. reflexivity.
  - intros b _ Hz. unfold display_row. cbn [Display.Perubahan]. now rewrite Hz.
Qed.

Lemma table_marks_unchanged_rows_witness :
  exists r, hd_error (map display_row sample_bars) = Some r /\
            Display.Perubahan r = "-".
Proof.
  apply (table_marks_unchanged_rows (sample_world (Return sample_week) llm_down)).
  vm_compute. reflexivity.
Defined.

Lemma contains_self (x : string) : PyStr.contains x x = true.
Proof.
  apply contains_iff. exists "", "". cbn.
  induction x as [|c x IH]; cbn; [reflexivity | now rewrite <- IH].
Qed.

Ltac find_in :=
  first [ apply contains_here | apply contains_self
        | apply contains_app_r; find_in ].

(** X21: The text of an exception raised by the provider reaches the user as it
    is in the weekly mode, which calls no model; in the latest mode it is put
    in the one prompt sent to the model. *)
Theorem provider_error_is_passed_on (w : World) (e : string) :
  (history w "1mo" = Raise e ->
   exists text,
     Eff.run (get_ihsg_weekly_data_and_format w)
       = (Return (WeeklyMessage text), []) /\
     PyStr.contains e text = true) /\
  (history w "5d" = Raise e ->
   exists text system human,
     Eff.run (get_ihsg_data_and_format w)
       = (Return text, [[SystemMessage system; HumanMessage human]]) /\
     PyStr.contains e human = true).
Proof.
  split; intros Eh.
  - pose proof (fetch_ihsg_weekly_data_cases w) as C. rewrite Eh in C.
    unfold get_ihsg_weekly_data_and_format. rewrite C.
    eexists. split; [reflexivity|]. unfold weekly_error_message. find_in.
  - unfold get_ihsg_data_and_format. rewrite (fetch_ihsg_data_raised w e Eh).
    destruct (error_response_run w e) as (text & Er & _).
    exists text. eexists. eexists. split; [exact Er|]. find_in.
Qed.
